(** * Timetable generator: a shallow embedding of [main.py] and its properties

    The development follows the Python source function by function.
    Dictionaries are finite maps ([gmap]), Python sets are finite sets
    ([gset]), integers are [Z], text is [string].  Code that can raise is
    written in a state-and-exception monad [M]; the draws of the [random]
    module are read from a stream of naturals carried by the state, so every
    outcome of [random.choice] and [random.sample] is the outcome of the model
    for some stream. *)

From Stdlib Require Import ZArith Ascii.
From stdpp Require Import gmap strings list fin_maps pretty.

Open Scope string_scope.
Open Scope Z_scope.

(** ** Python text primitives *)

Module Py.

(** [str.isspace] on the ASCII range: tab to carriage return, the four
    separators 28..31 and the blank. *)
Definition is_space (a : ascii) : bool :=
  let n := nat_of_ascii a in
  ((9 <=? n)%nat && (n <=? 13)%nat) || ((28 <=? n)%nat && (n <=? 32)%nat).

Fixpoint lstrip (s : string) : string :=
  match s with
  | String a s' => if is_space a then lstrip s' else s
  | EmptyString => EmptyString
  end.

Fixpoint rstrip (s : string) : string :=
  match s with
  | EmptyString => EmptyString
  | String a s' =>
      match rstrip s' with
      | EmptyString => if is_space a then EmptyString else String a EmptyString
      | r => String a r
      end
  end.

(** [s.strip()] *)
Definition strip (s : string) : string := rstrip (lstrip s).

(** [s.split(sep)] for a one-character separator. *)
Fixpoint split (sep : ascii) (s : string) : list string :=
  match s with
  | EmptyString => [EmptyString]
  | String a s' =>
      if bool_decide (a = sep) then EmptyString :: split sep s'
      else match split sep s' with
           | h :: t => String a h :: t
           | [] => [String a EmptyString]
           end
  end.

(** [s.split()]: the maximal runs of non-blank characters. *)
Fixpoint split_ws (s : string) : list string :=
  match s with
  | EmptyString => []
  | String a s' =>
      if is_space a then split_ws s'
      else match s' with
           | EmptyString => [String a EmptyString]
           | String b _ =>
               if is_space b then String a EmptyString :: split_ws s'
               else match split_ws s' with
                    | h :: t => String a h :: t
                    | [] => [String a EmptyString]
                    end
           end
  end.

(** [sub in s] *)
Fixpoint contains (sub s : string) : bool :=
  String.prefix sub s ||
  match s with
  | EmptyString => false
  | String _ s' => contains sub s'
  end.

(** [s.replace(a, b)] for one-character [a] and [b]. *)
Fixpoint replace (a b : ascii) (s : string) : string :=
  match s with
  | EmptyString => EmptyString
  | String c s' => String (if bool_decide (c = a) then b else c) (replace a b s')
  end.

(** [str(n)] for an integer. *)
Definition str (n : Z) : string := pretty n.

Definition digit_val (a : ascii) : option Z :=
  let n := nat_of_ascii a in
  if (48 <=? n)%nat && (n <=? 57)%nat then Some (Z.of_nat (n - 48)) else None.

Inductive int_state := AtStart | AfterDigit | AfterUnderscore.

(** The digits of a decimal literal; single underscores may separate them. *)
Fixpoint int_digits (acc : Z) (st : int_state) (s : string) : option Z :=
  match s with
  | EmptyString => match st with AfterDigit => Some acc | _ => None end
  | String a s' =>
      match digit_val a with
      | Some d => int_digits (10 * acc + d) AfterDigit s'
      | None =>
          if bool_decide (a = "_"%char) then
            match st with
            | AfterDigit => int_digits acc AfterUnderscore s'
            | _ => None
            end
          else None
      end
  end.

(** [int(s)] on ASCII text: surrounding blanks, an optional sign, decimal
    digits.  [None] stands for [ValueError]. *)
Definition int (s : string) : option Z :=
  match strip s with
  | String "+" r => int_digits 0 AtStart r
  | String "-" r => Z.opp <$> int_digits 0 AtStart r
  | r => int_digits 0 AtStart r
  end.

(** [l[:n]] *)
Definition slice_to {A} (n : Z) (l : list A) : list A :=
  if 0 <=? n then take (Z.to_nat n) l
  else take (length l - Z.to_nat (- n)) l.

(** [range(a, b)] *)
Definition range (a b : Z) : list Z := seqZ a (b - a).

(** [l.remove(x)]: drops the first occurrence; [None] stands for
    [ValueError]. *)
Fixpoint remove `{EqDecision A} (x : A) (l : list A) : option (list A) :=
  match l with
  | [] => None
  | y :: l' => if decide (y = x) then Some l' else (y ::.) <$> remove x l'
  end.

(** [os.path.join(a, b)] *)
Definition path_join (a b : string) : string :=
  match b with
  | String "/" _ => b
  | _ =>
      match a with
      | EmptyString => b
      | _ => if String.prefix "/" (String.rev a) then a +:+ b
             else a +:+ "/" +:+ b
      end
  end.

End Py.

(** ** Exceptions and results *)

Inductive exn :=
| ValueError (msg : string)
| KeyError (msg : string)
| IndexError (msg : string)
| OSError (msg : string).

(** [str(e)] *)
Definition exn_str (e : exn) : string :=
  match e with
  | ValueError m | KeyError m | IndexError m | OSError m => m
  end.

Inductive result (A : Type) :=
| Ok (a : A)
| Raise (e : exn).
Arguments Ok {A} a.
Arguments Raise {A} e.

#[global] Instance exn_eq_dec : EqDecision exn.
Proof. solve_decision. Defined.
#[global] Instance result_eq_dec `{EqDecision A} : EqDecision (result A).
Proof. solve_decision. Defined.

(** [repr(s)] of a text without quotes or escapes. *)
Definition repr (s : string) : string := "'" +:+ s +:+ "'".

(** ** Hours and slot labels *)

(** [parse_time], local to [generate_timetable]. *)
Definition parse_time (time_str : string) : result Z :=
  let head := hd EmptyString (Py.split ":" time_str) in
  match Py.int head with
  | None =>
      Raise (ValueError ("invalid literal for int() with base 10: " +:+ repr head))
  | Some hour =>
      if Py.contains "PM" time_str && negb (hour =? 12) then Ok (hour + 12)
      else if Py.contains "AM" time_str && (hour =? 12) then Ok 0
      else Ok hour
  end.

(** [format_hour], local to [_create_time_slots]. *)
Definition format_hour (h : Z) : string :=
  if (h =? 0) || (h =? 24) then "12:00-12:50 AM"
  else if h =? 12 then "12:00-12:50 PM"
  else
    let period := if h <? 12 then "AM" else "PM" in
    let h := if h <=? 12 then h else h - 12 in
    Py.str h +:+ ":00-" +:+ Py.str h +:+ ":50 " +:+ period.

Definition _create_time_slots (start_hour end_hour count : Z) : list string :=
  let slots := format_hour <$> Py.range start_hour (end_hour + 1) in
  Py.slice_to count slots.

(** ** Dictionaries built by comprehension *)

(** [{k: f(k) for k in l}]: keys are inserted in order, a repeated key keeps
    one entry. *)
Definition dict_comp `{Countable K} {V} (f : K → V) (l : list K) : gmap K V :=
  foldl (λ d k, <[k := f k]> d) ∅ l.

(** [a | b] on dictionaries: the right operand wins on a shared key. *)
Definition dict_or `{Countable K} {V} (a b : gmap K V) : gmap K V := b ∪ a.

(** ** Teachers *)

Record Teacher := mkTeacher {
  name : string;
  subjects : gset string;
  grades : gset string;
  schedule : gmap string (gmap string string)
}.

Definition initialize_schedule (days time_slots : list string) (self : Teacher)
  : Teacher :=
  mkTeacher (name self) (subjects self) (grades self)
    (dict_comp (λ _, dict_comp (λ _, "") time_slots) days).

Definition is_available (self : Teacher) (day time_slot : string) : bool :=
  match default ∅ (schedule self !! day) !! time_slot with
  | Some occupant => bool_decide (occupant = "")
  | None => true
  end.

Definition assign (self : Teacher) (day time_slot class_name : string) : Teacher :=
  match schedule self !! day with
  | Some row =>
      if bool_decide (is_Some (row !! time_slot)) then
        mkTeacher (name self) (subjects self) (grades self)
          (<[day := <[time_slot := class_name]> row]> (schedule self))
      else self
  | None => self
  end.

(** ** The manager: class constants *)

Definition WEEKDAYS : list string :=
  ["Monday"; "Tuesday"; "Wednesday"; "Thursday"; "Friday"].
Definition SATURDAY_OPTIONS : list string := ["Holiday"; "Half Day"; "Full Day"].
Definition AVAILABLE_SLOTS : list string :=
  ["7:00-7:50 AM"; "8:00-8:50 AM"; "9:00-9:50 AM"; "10:00-10:50 AM";
   "11:00-11:50 AM"; "12:00-12:50 PM"; "1:00-1:50 PM"; "2:00-2:50 PM";
   "3:00-3:50 PM"; "4:00-4:50 PM"].
Definition ACTIVITY_SUBJECTS : list string :=
  ["Sports"; "Drawing/Craft"; "Drama"; "Music"; "Instrument"; "Dance"].
Definition SECTIONS : list string := ["A"; "B"; "C"; "D"; "E"; "F"; "G"; "H"].
Definition GRADES : list string :=
  ["1-5"; "6-8"; "9-10"; "11-12 Science"; "11-12 Commerce"; "11-12 Arts"].

Definition GRADE_MAPPING : gmap string string :=
  dict_or (dict_or (dict_or
    (dict_comp (λ _, "1-5") (Py.str <$> Py.range 1 6))
    (dict_comp (λ _, "6-8") (Py.str <$> Py.range 6 9)))
    (dict_comp (λ _, "9-10") (Py.str <$> Py.range 9 11)))
    (dict_comp (λ _, "11-12 Science") (Py.str <$> Py.range 11 13)).

Definition NCERT_SUBJECTS : gmap string (list string) :=
  list_to_map
    [("1-5", ["English"; "Hindi"; "Mathematics"; "EVS"; "Art"; "Physical Education"]);
     ("6-8", ["English"; "Hindi"; "Mathematics"; "Science"; "Social Science";
              "Sanskrit"; "Computer Basics"]);
     ("9-10", ["English"; "Hindi"; "Mathematics"; "Science"; "Social Science";
               "IT"; "Commerce Basics"]);
     ("11-12 Science", ["Physics"; "Chemistry"; "Biology/Math"; "Computer Science"]);
     ("11-12 Commerce", ["Accountancy"; "Business Studies"; "Economics"]);
     ("11-12 Arts", ["History"; "Political Science"; "Sociology"])].

Definition get_grade_key (grade : string) : string :=
  default "11-12 Science" (GRADE_MAPPING !! grade).

(** ** The manager: state *)

(** What [pd.DataFrame.from_dict(data, orient='index', columns=...)] is given;
    the frame itself is not interpreted. *)
Record DataFrame := from_dict {
  df_data : gmap string (gmap string string);
  df_columns : list string
}.

Record TimetableManager := mkManager {
  teachers : gmap string Teacher;
  subject_grade_teachers : gmap (string * string) (list string);
  timetable_cache : gmap string DataFrame;
  teacher_timetable : gmap string DataFrame
}.

Definition output_dir : string := "timetables".

(** [TimetableManager.__init__] *)
Definition init : TimetableManager := mkManager ∅ ∅ ∅ ∅.

Definition set_teachers (f : gmap string Teacher → gmap string Teacher)
  (m : TimetableManager) : TimetableManager :=
  mkManager (f (teachers m)) (subject_grade_teachers m) (timetable_cache m)
    (teacher_timetable m).

Definition set_index
  (f : gmap (string * string) (list string) → gmap (string * string) (list string))
  (m : TimetableManager) : TimetableManager :=
  mkManager (teachers m) (f (subject_grade_teachers m)) (timetable_cache m)
    (teacher_timetable m).

Definition set_timetable_cache (f : gmap string DataFrame → gmap string DataFrame)
  (m : TimetableManager) : TimetableManager :=
  mkManager (teachers m) (subject_grade_teachers m) (f (timetable_cache m))
    (teacher_timetable m).

Definition set_teacher_timetable (f : gmap string DataFrame → gmap string DataFrame)
  (m : TimetableManager) : TimetableManager :=
  mkManager (teachers m) (subject_grade_teachers m) (timetable_cache m)
    (f (teacher_timetable m)).

(** *** Registration *)

(** The inner loops of [add_teacher]: one append per (subject, grade). *)
Definition index_append (name : string) (key : string * string)
  (index : gmap (string * string) (list string))
  : gmap (string * string) (list string) :=
  let index := if bool_decide (is_Some (index !! key)) then index
               else <[key := []]> index in
  <[key := (default [] (index !! key) ++ [name])%list]> index.

Definition parse_subjects (subjects_text : string) : gset string :=
  list_to_set (filter (λ s, s ≠ "") (Py.strip <$> Py.split "," subjects_text)).

Definition add_teacher (name subjects_text : string) (grades : list string)
  (m : TimetableManager) : string * TimetableManager :=
  if bool_decide (name = "") || bool_decide (subjects_text = "")
     || bool_decide (grades = [])
  then ("❌ All fields are required!", m)
  else
    let subjects := parse_subjects subjects_text in
    let grades_set : gset string := list_to_set grades in
    let m := set_teachers <[name := mkTeacher name subjects grades_set ∅]> m in
    let m :=
      foldl (λ m subject,
               foldl (λ m grade, set_index (index_append name (subject, grade)) m)
                 m (elements grades_set))
        m (elements subjects) in
    ("✅ Teacher " +:+ name +:+ " added successfully!", m).

(** ** The world a generation runs in *)

(** The manager object, the draws the [random] module will deliver, and the
    paths at which a CSV file can be written. *)
Record World := mkWorld {
  manager : TimetableManager;
  random : list nat;
  filesystem : string → bool
}.

Definition M (A : Type) : Type := World → result A * World.

Definition ret {A} (a : A) : M A := λ w, (Ok a, w).
Definition raise {A} (e : exn) : M A := λ w, (Raise e, w).
Definition bind {A B} (m : M A) (k : A → M B) : M B :=
  λ w, match m w with
       | (Ok a, w') => k a w'
       | (Raise e, w') => (Raise e, w')
       end.
Definition lift {A} (r : result A) : M A := λ w, (r, w).
Definition modify (f : TimetableManager → TimetableManager) : M unit :=
  λ w, (Ok (), mkWorld (f (manager w)) (random w) (filesystem w)).
Definition gets {A} (f : TimetableManager → A) : M A := λ w, (Ok (f (manager w)), w).

Notation "x <- m ;; k" := (bind m (λ x, k))
  (at level 100, m at next level, right associativity).
Notation "m ;;; k" := (bind m (λ _, k))
  (at level 100, right associativity).

(** [for x in l: acc = body(acc, x)] *)
Fixpoint foldM {A B} (body : B → A → M B) (acc : B) (l : list A) : M B :=
  match l with
  | [] => ret acc
  | x :: l' => acc' <- body acc x ;; foldM body acc' l'
  end.

(** [d[k]] *)
Definition getitem `{Countable K} {V} (show : K → string) (d : gmap K V) (k : K)
  : result V :=
  match d !! k with
  | Some v => Ok v
  | None => Raise (KeyError (show k))
  end.

(** *** The [random] module *)

Definition draw : M nat :=
  λ w, match random w with
       | [] => (Ok 0%nat, w)
       | r :: rs => (Ok r, mkWorld (manager w) rs (filesystem w))
       end.

(** [random.choice(seq)] *)
Definition random_choice {A} (seq : list A) : M A :=
  match seq with
  | [] => raise (IndexError "Cannot choose from an empty sequence")
  | x :: _ => r <- draw ;; ret (nth (r mod length seq)%nat seq x)
  end.

Fixpoint sample_loop {A} (pool : list A) (k : nat) : M (list A) :=
  match k with
  | O => ret []
  | S k' =>
      match pool with
      | [] => raise (ValueError "Sample larger than population or is negative")
      | x :: _ =>
          r <- draw ;;
          let i := (r mod length pool)%nat in
          rest <- sample_loop (delete i pool) k' ;;
          ret (nth i pool x :: rest)
      end
  end.

(** [random.sample(population, k)]: [k] positions drawn without replacement,
    in the order drawn. *)
Definition random_sample {A} (population : list A) (k : Z) : M (list A) :=
  if (k <? 0) || (Z.of_nat (length population) <? k)
  then raise (ValueError "Sample larger than population or is negative")
  else sample_loop population (Z.to_nat k).

(** [df.to_csv(filename, ...)] *)
Definition to_csv (filename : string) : M unit :=
  λ w, if filesystem w filename then (Ok (), w)
       else (Raise (OSError ("Cannot save file into " +:+ repr filename)), w).

(** *** Teacher assignment *)

(** The comprehension of [get_available_teachers]. *)
Fixpoint available_among (teachers : gmap string Teacher) (day time_slot : string)
  (names : list string) : result (list string) :=
  match names with
  | [] => Ok []
  | name :: names' =>
      match getitem repr teachers name with
      | Raise e => Raise e
      | Ok t =>
          match available_among teachers day time_slot names' with
          | Raise e => Raise e
          | Ok rest => Ok (if is_available t day time_slot then name :: rest else rest)
          end
      end
  end.

Definition get_available_teachers (subject grade_key day time_slot : string)
  : M (list string) :=
  λ w, (available_among (teachers (manager w)) day time_slot
          (default [] (subject_grade_teachers (manager w) !! (subject, grade_key))),
        w).

Definition assign_teacher (subject grade_key day time_slot class_name : string)
  : M string :=
  available_teachers <- get_available_teachers subject grade_key day time_slot ;;
  match available_teachers with
  | [] => ret "TBD"
  | _ =>
      teacher <- random_choice available_teachers ;;
      t <- (λ w, (getitem repr (teachers (manager w)) teacher, w)) ;;
      modify (set_teachers <[teacher := assign t day time_slot class_name]>) ;;;
      ret teacher
  end.

(** ** Generation *)

Record Params := mkParams {
  selected_sections : list string;
  activity_subjects : list string;
  activity_count : string;
  start_time : string;
  end_time : string;
  periods_per_day : Z;
  lunch_time : string;
  saturday_option : string
}.

Definition LUNCH : string := "Lunch Break 🍽".

(** The locals [timetable] and [available_slots] of one class. *)
Abbreviation Grid := (gmap string (gmap string string)).
Abbreviation Pools := (gmap string (list string)).

(** [timetable[time][day] = label] *)
Definition set_cell (time day label : string) (timetable : Grid) : result Grid :=
  match timetable !! time with
  | Some row => Ok (<[time := <[day := label]> row]> timetable)
  | None => Raise (KeyError (repr time))
  end.

(** [available_slots[day].remove(time)] *)
Definition remove_slot (day time : string) (available_slots : Pools) : result Pools :=
  match available_slots !! day with
  | None => Raise (KeyError (repr day))
  | Some slots =>
      match Py.remove time slots with
      | None => Raise (ValueError "list.remove(x): x not in list")
      | Some slots' => Ok (<[day := slots']> available_slots)
      end
  end.

(** The three statements both filling loops share: assign a teacher, write
    the cell, take the slot out of the day's pool. *)
Definition book_cell (subject grade_key day time class_name : string)
  (st : Grid * Pools) : M (Grid * Pools) :=
  teacher <- assign_teacher subject grade_key day time class_name ;;
  timetable <- lift (set_cell time day (subject +:+ " (" +:+ teacher +:+ ")") st.1) ;;
  available_slots <- lift (remove_slot day time st.2) ;;
  ret (timetable, available_slots).

(** Lines 180-184. *)
Definition place_lunch (params : Params) (days time_slots : list string)
  (st : Grid * Pools) : M (Grid * Pools) :=
  if bool_decide (lunch_time params ∈ time_slots) then
    foldM (λ st day,
             timetable <- lift (set_cell (lunch_time params) day LUNCH st.1) ;;
             slots <- lift (getitem repr st.2 day) ;;
             if bool_decide (lunch_time params ∈ slots) then
               available_slots <- lift (remove_slot day (lunch_time params) st.2) ;;
               ret (timetable, available_slots)
             else ret (timetable, st.2))
      st days
  else ret st.

(** [[(day, time) for day in days for time in available_slots[day]]] *)
Fixpoint all_slots_of (available_slots : Pools) (days : list string)
  : result (list (string * string)) :=
  match days with
  | [] => Ok []
  | day :: days' =>
      match getitem repr available_slots day with
      | Raise e => Raise e
      | Ok slots =>
          match all_slots_of available_slots days' with
          | Raise e => Raise e
          | Ok rest => Ok (((λ time, (day, time)) <$> slots) ++ rest)%list
          end
      end
  end.

(** Lines 186-195. *)
Definition place_activities (params : Params) (days time_slots : list string)
  (grade_key class_name : string) (st : Grid * Pools) : M (Grid * Pools) :=
  n <- lift (match Py.int (activity_count params) with
             | Some n => Ok n
             | None => Raise (ValueError ("invalid literal for int() with base 10: "
                                          +:+ repr (activity_count params)))
             end) ;;
  let activity_count := Z.min n (Z.of_nat (length days) * Z.of_nat (length time_slots)) in
  let activity_options := activity_subjects params in
  if negb (bool_decide (activity_options = [])) && (0 <? activity_count) then
    all_slots <- lift (all_slots_of st.2 days) ;;
    activity_slots <-
      random_sample all_slots (Z.min activity_count (Z.of_nat (length all_slots))) ;;
    foldM (λ st '(day, time),
             activity <- random_choice activity_options ;;
             book_cell activity grade_key day time class_name st)
      st activity_slots
  else ret st.

(** Lines 197-204. *)
Definition fill_core (days : list string) (grade_key class_name : string)
  (st : Grid * Pools) : M (Grid * Pools) :=
  core_subjects <- lift (getitem repr NCERT_SUBJECTS grade_key) ;;
  foldM (λ st day,
           slots <- lift (getitem repr st.2 day) ;;
           foldM (λ st time,
                    subject <- random_choice core_subjects ;;
                    book_cell subject grade_key day time class_name st)
             st slots)
    st days.

(** The body of the loop over [classes], lines 171-210. *)
Definition generate_class (params : Params) (days time_slots : list string)
  (generated_files : list string) (class_name : string) : M (list string) :=
  grade <- lift (match Py.split_ws class_name !! 1%nat with
                 | Some g => Ok g
                 | None => Raise (IndexError "list index out of range")
                 end) ;;
  let grade_key := get_grade_key grade in
  let timetable : Grid := dict_comp (λ _, dict_comp (λ _, "") days) time_slots in
  let saturday_slots :=
    if bool_decide (saturday_option params = "Half Day")
    then Py.slice_to (Z.of_nat (length time_slots) `div` 2) time_slots
    else time_slots in
  let available_slots : Pools :=
    dict_comp (λ day, if bool_decide (day ≠ "Saturday") then time_slots
                      else saturday_slots) days in
  st <- place_lunch params days time_slots (timetable, available_slots) ;;
  st <- place_activities params days time_slots grade_key class_name st ;;
  st <- fill_core days grade_key class_name st ;;
  let df := from_dict st.1 days in
  let filename :=
    Py.path_join output_dir (Py.replace " " "_" class_name +:+ ".csv") in
  to_csv filename ;;;
  modify (set_timetable_cache <[class_name := df]>) ;;;
  ret (generated_files ++ [filename])%list.

(** [{slot: t.schedule[day][slot] or "Free" for slot in time_slots}] *)
Fixpoint teacher_row (t : Teacher) (day : string) (time_slots : list string)
  (acc : gmap string string) : result (gmap string string) :=
  match time_slots with
  | [] => Ok acc
  | slot :: rest =>
      match getitem repr (schedule t) day with
      | Raise e => Raise e
      | Ok row =>
          match getitem repr row slot with
          | Raise e => Raise e
          | Ok v =>
              teacher_row t day rest
                (<[slot := if bool_decide (v = "") then "Free" else v]> acc)
          end
      end
  end.

Fixpoint teacher_grid (t : Teacher) (days time_slots : list string) (acc : Grid)
  : result Grid :=
  match days with
  | [] => Ok acc
  | day :: rest =>
      match teacher_row t day time_slots ∅ with
      | Raise e => Raise e
      | Ok row => teacher_grid t rest time_slots (<[day := row]> acc)
      end
  end.

(** The comprehension [teacher_schedules], lines 212-215, in the order of
    [self.teachers.items()]. *)
Fixpoint teacher_schedules_of (items : list (string * Teacher))
  (days time_slots : list string) : result (list (string * Grid)) :=
  match items with
  | [] => Ok []
  | (teacher, t) :: rest =>
      match teacher_grid t days time_slots ∅ with
      | Raise e => Raise e
      | Ok g =>
          match teacher_schedules_of rest days time_slots with
          | Raise e => Raise e
          | Ok gs => Ok ((teacher, g) :: gs)
          end
      end
  end.

(** The body of the loop over [teacher_schedules], lines 216-221. *)
Definition export_teacher (days : list string) (generated_files : list string)
  (entry : string * Grid) : M (list string) :=
  let df := from_dict entry.2 days in
  let filename :=
    Py.path_join output_dir ("Teacher_" +:+ Py.replace " " "_" entry.1 +:+ ".csv") in
  to_csv filename ;;;
  modify (set_teacher_timetable <[entry.1 := df]>) ;;;
  ret (generated_files ++ [filename])%list.

Definition SUCCESS : string := "✅ Generation Complete".

(** [[f"Grade {i} {section}" for i in range(1, 13) for section in ...]] *)
Definition class_names (selected_sections : list string) : list string :=
  i ← Py.range 1 13;
  section ← selected_sections;
  ["Grade " +:+ Py.str i +:+ " " +:+ section].

(** The [try] block of [generate_timetable]. *)
Definition generate_timetable_try (params : Params) : M (string * list string) :=
  start_hour <- lift (parse_time (start_time params)) ;;
  end_hour <- lift (parse_time (end_time params)) ;;
  if end_hour <=? start_hour then
    ret ("❌ End time must be after start time", [])
  else if end_hour - start_hour <? periods_per_day params then
    ret ("❌ Not enough hours (" +:+ Py.str (end_hour - start_hour) +:+ ") for "
         +:+ Py.str (periods_per_day params) +:+ " periods", [])
  else
    let time_slots := _create_time_slots start_hour end_hour (periods_per_day params) in
    let saturday_included := negb (bool_decide (saturday_option params = "Holiday")) in
    let days := (WEEKDAYS ++ (if saturday_included then ["Saturday"] else []))%list in
    modify (set_teachers (fmap (initialize_schedule days time_slots))) ;;;
    let selected_sections := Py.slice_to 4 (selected_sections params) in
    let classes := class_names selected_sections in
    if negb (bool_decide (length classes = 48%nat)) then
      ret ("❌ Expected 48 classes (12 grades × 4 sections), got "
           +:+ Py.str (Z.of_nat (length classes)) +:+ ". Adjust sections.", [])
    else
      modify (set_timetable_cache (λ _, ∅)) ;;;
      modify (set_teacher_timetable (λ _, ∅)) ;;;
      generated_files <- foldM (generate_class params days time_slots) [] classes ;;
      items <- gets (λ m, map_to_list (teachers m)) ;;
      teacher_schedules <- lift (teacher_schedules_of items days time_slots) ;;
      generated_files <- foldM (export_teacher days) generated_files teacher_schedules ;;
      ret (SUCCESS, generated_files).

(** [generate_timetable]: the [try] block under [except Exception]. *)
Definition generate_timetable (params : Params) (w : World)
  : (string * list string) * World :=
  match generate_timetable_try params w with
  | (Ok r, w') => (r, w')
  | (Raise e, w') => (("❌ Error: " +:+ exn_str e, []), w')
  end.

(** ** Vocabulary of the statements *)

(** One call of [add_teacher] and a sequence of them. *)
Record Registration := mkRegistration {
  reg_name : string;
  reg_subjects : string;
  reg_grades : list string
}.

Definition accepted (r : Registration) : Prop :=
  reg_name r ≠ "" ∧ reg_subjects r ≠ "" ∧ reg_grades r ≠ [].

Definition register (m : TimetableManager) (r : Registration) : TimetableManager :=
  (add_teacher (reg_name r) (reg_subjects r) (reg_grades r) m).2.

Definition register_all (rs : list Registration) (m : TimetableManager)
  : TimetableManager :=
  foldl register m rs.

(** [self.subject_grade_teachers.get((subject, grade), [])] *)
Definition index_list (m : TimetableManager) (subject grade : string) : list string :=
  default [] (subject_grade_teachers m !! (subject, grade)).

(** A name is listed for a pair exactly when the teacher currently stored
    under that name has the subject and the grade band. *)
Definition index_membership (m : TimetableManager) : Prop :=
  ∀ n t s g, teachers m !! n = Some t →
    (n ∈ index_list m s g ↔ s ∈ subjects t ∧ g ∈ grades t).

(** The day list and the slot list of a run. *)
Definition days_of (params : Params) : list string :=
  (WEEKDAYS ++ (if negb (bool_decide (saturday_option params = "Holiday"))
                then ["Saturday"] else []))%list.

Definition classes_of (params : Params) : list string :=
  class_names (Py.slice_to 4 (selected_sections params)).

(** Example inputs: a registry of two teachers, the default form values with
    four periods, and a request whose end time precedes its start time. *)
Definition example_manager : TimetableManager :=
  register_all
    [mkRegistration "Asha" "English, Sports" ["1-5"; "6-8"];
     mkRegistration "Ravi" "Hindi" ["1-5"]]
    init.

Definition example_world : World :=
  mkWorld example_manager [3; 1; 4; 1; 5; 9; 2; 6; 5; 3; 5; 8; 9; 7; 9]%nat (λ _, true).

Definition example_params : Params :=
  mkParams ["A"; "B"; "C"; "D"] ["Sports"] "1" "8:00-8:50 AM" "3:00-3:50 PM" 4
    "9:00-9:50 AM" "Half Day".

Definition late_start_params : Params :=
  mkParams ["A"; "B"; "C"; "D"] ["Sports"] "1" "3:00-3:50 PM" "8:00-8:50 AM" 4
    "9:00-9:50 AM" "Half Day".

Definition three_section_params : Params :=
  mkParams ["A"; "B"; "C"] ["Sports"] "1" "8:00-8:50 AM" "3:00-3:50 PM" 4
    "9:00-9:50 AM" "Half Day".

(** All (subject, grade) pairs of two lists, subject-major as the loops of
    [add_teacher] visit them. *)
Definition pairs_of (ss gs : list string) : list (string * string) :=
  s ← ss; (λ g, (s, g)) <$> gs.

(** A re-registration: the second call overwrites the profile of the first. *)
Definition reregistered_manager : TimetableManager :=
  register_all
    [mkRegistration "Asha" "Mathematics" ["1-5"];
     mkRegistration "Asha" "Art" ["1-5"]]
    init.

(** The occupant of a teacher's schedule at a day and slot, if the cell
    exists. *)
Definition cell_of (t : Teacher) (day slot : string) : option string :=
  schedule t !! day ≫= (.!! slot).

(** A status that reports a failure. *)
Definition failure (status : string) : Prop := String.prefix "❌" status = true.

(** The claim that a failed call leaves no grid in either cache. *)
Definition failed_call_leaves_no_grids (p : Params) (w : World) : Prop :=
  failure (generate_timetable p w).1.1 →
  timetable_cache (manager (generate_timetable p w).2) = ∅
  ∧ teacher_timetable (manager (generate_timetable p w).2) = ∅.

(** The cell of a class grid at a slot and day, if present. *)
Definition grid_cell (g : Grid) (time day : string) : option string :=
  g !! time ≫= (.!! day).

(** Teacher [r] is booked at the day and slot for the class. *)
Definition booked (ts : gmap string Teacher) (r day slot class_name : string) : Prop :=
  ∃ t, ts !! r = Some t ∧ cell_of t day slot = Some class_name.

(** The subjects a run can place: the selected activities and the core lists. *)
Definition subject_of_run (p : Params) (s : string) : Prop :=
  s ∈ activity_subjects p ∨ ∃ gk core, NCERT_SUBJECTS !! gk = Some core ∧ s ∈ core.

(** What a cell of the grid of [class_name] can hold: nothing, the lunch
    label, or a subject followed by "TBD" or by a teacher whose schedule shows
    the class at that day and slot. *)
Definition cell_ok (p : Params) (ts : gmap string Teacher)
  (class_name day slot v : string) : Prop :=
  v = "" ∨ v = LUNCH
  ∨ ∃ s r, v = s +:+ " (" +:+ r +:+ ")" ∧ subject_of_run p s
           ∧ (r = "TBD" ∨ booked ts r day slot class_name).

(** Every name in the index has a profile. *)
Definition index_registered (m : TimetableManager) : Prop :=
  map_Forall (λ _ names, Forall (λ n, is_Some (teachers m !! n)) names)
    (subject_grade_teachers m).

(** Every teacher's schedule has a cell for each day and slot of the run. *)
Definition schedules_cover (days slots : list string) (ts : gmap string Teacher)
  : Prop :=
  ∀ n t d sl, ts !! n = Some t → d ∈ days → sl ∈ slots → is_Some (cell_of t d sl).

(** Schedules only gain bookings: the same teachers, no cell lost, no
    occupied cell changed. *)
Definition teachers_grow (ts ts' : gmap string Teacher) : Prop :=
  ∀ n, match ts !! n, ts' !! n with
       | Some t, Some t' =>
           ∀ d sl v, cell_of t d sl = Some v →
             is_Some (cell_of t' d sl) ∧ (v ≠ "" → cell_of t' d sl = Some v)
       | None, None => True
       | _, _ => False
       end.

Definition extends (w w' : World) : Prop :=
  subject_grade_teachers (manager w') = subject_grade_teachers (manager w)
  ∧ timetable_cache (manager w') = timetable_cache (manager w)
  ∧ teacher_timetable (manager w') = teacher_timetable (manager w)
  ∧ filesystem w' = filesystem w
  ∧ teachers_grow (teachers (manager w)) (teachers (manager w')).

(** The world after one draw. *)
Definition advance (w : World) : World :=
  mkWorld (manager w) (tail (random w)) (filesystem w).

(** The teachers listed for the pair who are free at the day and slot. *)
Definition free_in (ts : gmap string Teacher) (day slot n : string) : bool :=
  match ts !! n with
  | Some t => is_available t day slot
  | None => false
  end.

Definition available_list (m : TimetableManager) (subject grade_key day slot : string)
  : list string :=
  filter (λ n, free_in (teachers m) day slot n) (index_list m subject grade_key).

(** The slots a class may fill on a day, before and after lunch is taken. *)
Definition saturday_slots_of (p : Params) (slots : list string) : list string :=
  if bool_decide (saturday_option p = "Half Day")
  then Py.slice_to (Z.of_nat (length slots) `div` 2) slots
  else slots.

Definition pool_of (p : Params) (slots : list string) (day : string) : list string :=
  if bool_decide (day ≠ "Saturday") then slots else saturday_slots_of p slots.

Definition open_pool (p : Params) (slots : list string) (day : string) : list string :=
  if bool_decide (lunch_time p ∈ slots)
  then default (pool_of p slots day) (Py.remove (lunch_time p) (pool_of p slots day))
  else pool_of p slots day.

(** The cell a slot and day hold once lunch is placed. *)
Definition lunch_or_blank (p : Params) (slots : list string) (time : string) : string :=
  if bool_decide (lunch_time p ∈ slots ∧ time = lunch_time p) then LUNCH else "".

(** [all_slots] of [place_activities] as a list. *)
Definition flat_pools (days : list string) (available_slots : Pools)
  : list (string * string) :=
  day ← days; (λ time, (day, time)) <$> default [] (available_slots !! day).

(** The state of one class while its grid is filled: the grid has exactly the
    run's cells; each day's pool is within the day's open pool; every cell is
    well formed; an open slot is still in the pool or already filled; a cell
    outside the open pool is as lunch placement left it. *)
Definition class_inv (p : Params) (days slots : list string) (c : string)
  (st : Grid * Pools) (ts : gmap string Teacher) : Prop :=
  (∀ t d, is_Some (grid_cell st.1 t d) ↔ t ∈ slots ∧ d ∈ days)
  ∧ (∀ d, d ∈ days → ∃ l, st.2 !! d = Some l ∧ l ⊆ open_pool p slots d)
  ∧ (∀ t d v, grid_cell st.1 t d = Some v → cell_ok p ts c d t v)
  ∧ (∀ d t, d ∈ days → t ∈ open_pool p slots d →
       (∃ l, st.2 !! d = Some l ∧ t ∈ l)
       ∨ (∃ v, grid_cell st.1 t d = Some v ∧ v ≠ ""))
  ∧ (∀ d t, d ∈ days → t ∈ slots → t ∉ open_pool p slots d →
       grid_cell st.1 t d = Some (lunch_or_blank p slots t)).

(** The grid and the pools once lunch is placed. *)
Definition lunch_placed (p : Params) (days slots done : list string)
  (st : Grid * Pools) : Prop :=
  (∀ t d, grid_cell st.1 t d
          = if decide (t ∈ slots ∧ d ∈ days)
            then Some (if decide (t = lunch_time p ∧ d ∈ done) then LUNCH else "")
            else None)
  ∧ (∀ d, st.2 !! d
          = if decide (d ∈ days)
            then Some (if decide (d ∈ done) then open_pool p slots d
                       else pool_of p slots d)
            else None).

(** What a run relies on throughout: indexed names have profiles, and every
    schedule has the run's cells. *)
Definition run_inv (days slots : list string) (w : World) : Prop :=
  index_registered (manager w) ∧ schedules_cover days slots (teachers (manager w)).

(** The CSV paths of lines 207 and 218. *)
Definition class_file (class_name : string) : string :=
  Py.path_join output_dir (Py.replace " " "_" class_name +:+ ".csv").

Definition teacher_file (teacher : string) : string :=
  Py.path_join output_dir ("Teacher_" +:+ Py.replace " " "_" teacher +:+ ".csv").

(** A finished class grid: exactly the run's cells, each well formed, every
    open slot filled, every other cell as lunch placement left it. *)
Definition grid_final (p : Params) (days slots : list string) (c : string)
  (ts : gmap string Teacher) (g : Grid) : Prop :=
  (∀ t d, is_Some (grid_cell g t d) ↔ t ∈ slots ∧ d ∈ days)
  ∧ (∀ t d v, grid_cell g t d = Some v → cell_ok p ts c d t v)
  ∧ (∀ d t, d ∈ days → t ∈ open_pool p slots d →
       ∃ v, grid_cell g t d = Some v ∧ v ≠ "")
  ∧ (∀ d t, d ∈ days → t ∈ slots → t ∉ open_pool p slots d →
       grid_cell g t d = Some (lunch_or_blank p slots t)).

(** ["Free"] for an empty schedule cell, lines 212-213. *)
Definition free_or (v : string) : string :=
  if bool_decide (v = "") then "Free" else v.

(** The manager while the loop over classes runs: [done] are the classes
    already cached. *)
Definition classes_inv (p : Params) (days slots : list string) (w0 : World)
  (done files : list string) (w : World) : Prop :=
  run_inv days slots w
  ∧ filesystem w = filesystem w0
  ∧ dom (teachers (manager w)) = dom (teachers (manager w0))
  ∧ subject_grade_teachers (manager w) = subject_grade_teachers (manager w0)
  ∧ teacher_timetable (manager w) = ∅
  ∧ dom (timetable_cache (manager w)) = list_to_set done
  ∧ (∀ c df, timetable_cache (manager w) !! c = Some df →
       c ≠ "" ∧ df_columns df = days
       ∧ grid_final p days slots c (teachers (manager w)) (df_data df))
  ∧ files = class_file <$> done.

(** What a successful run leaves behind. *)
Definition run_result (p : Params) (days slots : list string) (w : World)
  (files : list string) (w' : World) : Prop :=
  dom (timetable_cache (manager w')) = list_to_set (classes_of p)
  ∧ dom (teacher_timetable (manager w')) = dom (teachers (manager w))
  ∧ dom (teachers (manager w')) = dom (teachers (manager w))
  ∧ subject_grade_teachers (manager w') = subject_grade_teachers (manager w)
  ∧ run_inv days slots w'
  ∧ (∀ c df, timetable_cache (manager w') !! c = Some df →
       c ≠ "" ∧ df_columns df = days
       ∧ grid_final p days slots c (teachers (manager w')) (df_data df))
  ∧ (∀ n df, teacher_timetable (manager w') !! n = Some df →
       ∃ t, teachers (manager w') !! n = Some t ∧ df_columns df = days
            ∧ ∀ d sl, grid_cell (df_data df) d sl
                      = if decide (d ∈ days ∧ sl ∈ slots)
                        then free_or <$> cell_of t d sl else None)
  ∧ files = ((class_file <$> classes_of p)
             ++ (teacher_file <$> (map_to_list (teachers (manager w'))).*1))%list.

(** The grid exported for a teacher: the schedule day by day, ["Free"] where
    the cell is empty. *)
Definition teacher_grid_of (t : Teacher) (days slots : list string) (g : Grid) : Prop :=
  ∀ d sl, grid_cell g d sl
          = if decide (d ∈ days ∧ sl ∈ slots) then free_or <$> cell_of t d sl else None.

(** A subject name without the separator that precedes the teacher. *)
Definition plain (s : string) : Prop := Py.contains " (" s = false.

(** A request that passes the three validations, whose activity count reads
    as a number, on a manager whose index is sound, with every CSV path of
    the run writable. *)
Definition runnable (p : Params) (w : World) (s e n : Z) : Prop :=
  parse_time (start_time p) = Ok s ∧ parse_time (end_time p) = Ok e
  ∧ s < e ∧ periods_per_day p ≤ e - s
  ∧ length (classes_of p) = 48%nat
  ∧ Py.int (activity_count p) = Some n
  ∧ index_registered (manager w)
  ∧ (∀ c, c ∈ classes_of p → filesystem w (class_file c) = true)
  ∧ (∀ t, is_Some (teachers (manager w) !! t) → filesystem w (teacher_file t) = true).

(** No teacher other than the placeholder is shown by two class grids at the
    same slot and day. *)
Definition no_shared_teacher (p : Params) (m : TimetableManager) : Prop :=
  ∀ c1 c2 df1 df2 t d s1 s2 T,
    timetable_cache m !! c1 = Some df1 → timetable_cache m !! c2 = Some df2 →
    subject_of_run p s1 → subject_of_run p s2 → T ≠ "TBD" →
    grid_cell (df_data df1) t d = Some (s1 +:+ " (" +:+ T +:+ ")") →
    grid_cell (df_data df2) t d = Some (s2 +:+ " (" +:+ T +:+ ")") →
    c1 = c2 ∧ booked (teachers m) T d t c1.

(** Every cell of every cached class grid: the grid has exactly the run's
    cells; a slot of the day's pool holds the lunch label or a subject with
    "TBD" or a teacher booked there for the class; a slot outside the day's
    pool holds the lunch label if it is the lunch slot and is blank
    otherwise. *)
Definition grids_filled (p : Params) (days slots : list string)
  (m : TimetableManager) : Prop :=
  ∀ c df t d, timetable_cache m !! c = Some df →
    (is_Some (grid_cell (df_data df) t d) ↔ t ∈ slots ∧ d ∈ days)
    ∧ (d ∈ days → t ∈ pool_of p slots d →
         ∃ v, grid_cell (df_data df) t d = Some v ∧ v ≠ ""
              ∧ (v = LUNCH
                 ∨ ∃ s r, v = s +:+ " (" +:+ r +:+ ")" ∧ subject_of_run p s
                          ∧ (r = "TBD" ∨ booked (teachers m) r d t c)))
    ∧ (d ∈ days → t ∈ slots → t ∉ pool_of p slots d →
         grid_cell (df_data df) t d = Some (lunch_or_blank p slots t)).

(** Every day of every cached class grid has the lunch label at lunch. *)
Definition lunch_kept (p : Params) (days : list string) (m : TimetableManager) : Prop :=
  ∀ c df d, timetable_cache m !! c = Some df → d ∈ days →
    grid_cell (df_data df) (lunch_time p) d = Some LUNCH.

(** Each cached teacher grid is the teacher's schedule with ["Free"] for the
    empty cells, and a class grid that shows a teacher is matched by that
    teacher's grid showing the class. *)
Definition teacher_grids_agree (p : Params) (days slots : list string)
  (m : TimetableManager) : Prop :=
  (∀ n df, teacher_timetable m !! n = Some df →
     ∃ t, teachers m !! n = Some t ∧ df_columns df = days
          ∧ teacher_grid_of t days slots (df_data df))
  ∧ (∀ c df t d s T,
       timetable_cache m !! c = Some df → subject_of_run p s → T ≠ "TBD" →
       grid_cell (df_data df) t d = Some (s +:+ " (" +:+ T +:+ ")") →
       ∃ dfT, teacher_timetable m !! T = Some dfT
              ∧ grid_cell (df_data dfT) d t = Some c).

(** * Properties *)

(** ** Hour labels *)

Lemma parse_format_day_hours :
  Forall (λ h, parse_time (format_hour h) = Ok h) (seqZ 0 24).
Proof. vm_compute. repeat constructor. Qed.

(** C10. For every hour [0 <= h <= 23], parsing the label that [format_hour]
    produces for [h] gives [h] back; midnight is labelled "12:00-12:50 AM"
    and noon "12:00-12:50 PM". *)
Theorem hour_label_round_trip (h : Z) :
  0 ≤ h ≤ 23 →
  parse_time (format_hour h) = Ok h
  ∧ format_hour 0 = "12:00-12:50 AM"
  ∧ format_hour 12 = "12:00-12:50 PM".
Proof.
  intros Hh. split; [|done].
  pose proof parse_format_day_hours as HF.
  rewrite Forall_forall in HF. apply HF.
  apply elem_of_seqZ. lia.
Qed.

Lemma hour_label_round_trip_witness :
  parse_time (format_hour 17) = Ok 17
  ∧ format_hour 0 = "12:00-12:50 AM"
  ∧ format_hour 12 = "12:00-12:50 PM".
Proof. apply (hour_label_round_trip 17). lia. Defined.

(** [format_hour] labels distinct clock hours differently. *)
Lemma format_hour_inj (h k : Z) :
  0 ≤ h ≤ 23 → 0 ≤ k ≤ 23 → format_hour h = format_hour k → h = k.
Proof.
  intros Hh Hk Heq.
  destruct (hour_label_round_trip h Hh) as [Eh _].
  destruct (hour_label_round_trip k Hk) as [Ek _].
  rewrite Heq in Eh. congruence.
Qed.

Lemma slice_to_nonneg {A} (n : Z) (l : list A) :
  0 ≤ n → Py.slice_to n l = take (Z.to_nat n) l.
Proof.
  intros Hn. unfold Py.slice_to.
  destruct (0 <=? n) eqn:E; [done | lia].
Qed.

Lemma take_seqZ (m len : Z) (n : nat) :
  (Z.of_nat n ≤ len) → take n (seqZ m len) = seqZ m (Z.of_nat n).
Proof.
  intros Hn. unfold seqZ.
  rewrite <- fmap_take, take_seq, Nat2Z.id. f_equal. f_equal. lia.
Qed.

(** The slots of a valid range are the labels of the first [count] hours. *)
Lemma create_time_slots_sequential (start_hour end_hour count : Z) :
  0 ≤ count → count ≤ end_hour - start_hour →
  _create_time_slots start_hour end_hour count = format_hour <$> seqZ start_hour count.
Proof.
  intros H0 Hc. unfold _create_time_slots, Py.range.
  rewrite slice_to_nonneg by done.
  rewrite <- fmap_take. f_equal.
  rewrite take_seqZ by lia. f_equal. lia.
Qed.

Lemma create_time_slots_NoDup (start_hour end_hour count : Z) :
  0 ≤ start_hour → end_hour ≤ 23 →
  NoDup (_create_time_slots start_hour end_hour count).
Proof.
  intros Hs He. unfold _create_time_slots, Py.slice_to.
  assert (NoDup (format_hour <$> Py.range start_hour (end_hour + 1))) as Hnd.
  { apply NoDup_fmap_2_strong; [|apply NoDup_seqZ].
    intros h k Hh Hk. unfold Py.range in *.
    apply elem_of_seqZ in Hh, Hk. apply format_hour_inj; lia. }
  destruct (0 <=? count); (eapply sublist_NoDup; [apply Hnd | apply sublist_take]).
Qed.

Lemma generate_rejects_end_before_start (p : Params) (w : World) (s e : Z) :
  parse_time (start_time p) = Ok s → parse_time (end_time p) = Ok e →
  e ≤ s →
  generate_timetable p w = (("❌ End time must be after start time", []), w).
Proof.
  intros Hs He Hle.
  unfold generate_timetable, generate_timetable_try, bind, lift.
  rewrite Hs, He.
  destruct (e <=? s) eqn:E; [done | lia].
Qed.

Lemma generate_rejects_short_span (p : Params) (w : World) (s e : Z) :
  parse_time (start_time p) = Ok s → parse_time (end_time p) = Ok e →
  s < e → e - s < periods_per_day p →
  generate_timetable p w =
    (("❌ Not enough hours (" +:+ Py.str (e - s) +:+ ") for "
      +:+ Py.str (periods_per_day p) +:+ " periods", []), w).
Proof.
  intros Hs He Hlt Hspan.
  unfold generate_timetable, generate_timetable_try, bind, lift.
  rewrite Hs, He.
  destruct (e <=? s) eqn:E; [lia|].
  destruct (e - s <? periods_per_day p) eqn:E'; [done | lia].
Qed.

(** C7. With parsed hours [s] and [e]: if [e <= s], or the span [e - s] is
    below the period count, generation stops with the validation message, an
    empty file list and an untouched world (no slots, no grids); otherwise the
    slot list is the labels of the [periods_per_day] consecutive hours from
    [s], one per period.  From "8:00-8:50 AM" to "3:00-3:50 PM" with 7
    periods the slots are the seven labels from "8:00-8:50 AM" on. *)
Theorem slot_grid_construction (p : Params) (w : World) (s e : Z) :
  parse_time (start_time p) = Ok s →
  parse_time (end_time p) = Ok e →
  0 ≤ periods_per_day p →
  (e ≤ s →
     generate_timetable p w = (("❌ End time must be after start time", []), w))
  ∧ (s < e → e - s < periods_per_day p →
     generate_timetable p w =
       (("❌ Not enough hours (" +:+ Py.str (e - s) +:+ ") for "
         +:+ Py.str (periods_per_day p) +:+ " periods", []), w))
  ∧ (s < e → periods_per_day p ≤ e - s →
     _create_time_slots s e (periods_per_day p)
       = format_hour <$> seqZ s (periods_per_day p)
     ∧ Z.of_nat (length (_create_time_slots s e (periods_per_day p)))
       = periods_per_day p)
  ∧ (parse_time "8:00-8:50 AM" = Ok 8 ∧ parse_time "3:00-3:50 PM" = Ok 15
     ∧ _create_time_slots 8 15 7 =
         ["8:00-8:50 AM"; "9:00-9:50 AM"; "10:00-10:50 AM"; "11:00-11:50 AM";
          "12:00-12:50 PM"; "1:00-1:50 PM"; "2:00-2:50 PM"]).
Proof.
  intros Hs He Hp. repeat split.
  - by apply generate_rejects_end_before_start.
  - by apply generate_rejects_short_span.
  - by apply create_time_slots_sequential.
  - rewrite create_time_slots_sequential by lia.
    rewrite length_fmap, length_seqZ. lia.
Qed.

Lemma slot_grid_construction_witness :
  generate_timetable late_start_params example_world
    = (("❌ End time must be after start time", []), example_world)
  ∧ _create_time_slots 8 15 (periods_per_day example_params)
    = format_hour <$> seqZ 8 (periods_per_day example_params).
Proof.
  split.
  - apply (slot_grid_construction late_start_params example_world 15 8);
      [reflexivity | reflexivity | simpl; lia | lia].
  - apply (slot_grid_construction example_params example_world 8 15);
      [reflexivity | reflexivity | simpl; lia | lia | simpl; lia].
Defined.

(** ** Dictionaries and lists *)

Lemma dict_comp_snoc `{Countable K} {V} (f : K → V) (l : list K) (k : K) :
  dict_comp f (l ++ [k]) = <[k := f k]> (dict_comp f l).
Proof. unfold dict_comp. by rewrite foldl_app. Qed.

Lemma dict_comp_lookup `{Countable K} {V} (f : K → V) (l : list K) (k : K) :
  dict_comp f l !! k = if decide (k ∈ l) then Some (f k) else None.
Proof.
  induction l as [|x l IH] using rev_ind.
  - unfold dict_comp. simpl. rewrite lookup_empty.
    destruct (decide (k ∈ [])) as [Hin|]; [|done]. by apply elem_of_nil in Hin.
  - rewrite dict_comp_snoc, lookup_insert, IH.
    destruct (decide (x = k)) as [->|Hne].
    + rewrite decide_True; [done|]. apply elem_of_app. right. by left.
    + destruct (decide (k ∈ l)) as [Hin|Hnin].
      * rewrite decide_True; [done|]. apply elem_of_app. by left.
      * rewrite decide_False; [done|].
        rewrite elem_of_app, list_elem_of_singleton. by intros [?|?].
Qed.

Lemma dict_comp_lookup_Some `{Countable K} {V} (f : K → V) (l : list K) k v :
  dict_comp f l !! k = Some v ↔ k ∈ l ∧ v = f k.
Proof.
  rewrite dict_comp_lookup. destruct (decide (k ∈ l)) as [Hin|Hnin].
  - split; [by intros [= <-] | by intros [_ ->]].
  - split; [done | by intros [? _]].
Qed.

Lemma dict_comp_dom `{Countable K} {V} (f : K → V) (l : list K) :
  dom (dict_comp f l) = list_to_set l.
Proof.
  apply set_eq. intros k. rewrite elem_of_dom, elem_of_list_to_set.
  rewrite dict_comp_lookup. destruct (decide (k ∈ l)) as [Hin|Hnin].
  - split; [done | by eauto].
  - split; [by intros [? ?] | done].
Qed.

Lemma remove_Some_elem `{EqDecision A} (x : A) (l l' : list A) :
  Py.remove x l = Some l' → x ∈ l ∧ l ≡ₚ x :: l'.
Proof.
  revert l'. induction l as [|y l IH]; intros l'; simpl; [done|].
  destruct (decide (y = x)) as [->|Hne].
  - intros [= ->]. split; [by left | done].
  - destruct (Py.remove x l) as [l0|] eqn:E; simpl; [|done].
    intros [= <-]. destruct (IH l0 eq_refl) as [Hin Hp].
    split; [by right|]. rewrite Hp. apply Permutation_swap.
Qed.

Lemma remove_is_Some `{EqDecision A} (x : A) (l : list A) :
  x ∈ l → is_Some (Py.remove x l).
Proof.
  induction l as [|y l IH]; simpl.
  - by intros ?%elem_of_nil.
  - destruct (decide (y = x)); [by eauto|].
    intros [?|Hin]%elem_of_cons; [congruence|].
    destruct (IH Hin) as [l' ->]. by eauto.
Qed.

Lemma remove_head `{EqDecision A} (x : A) (l : list A) :
  Py.remove x (x :: l) = Some l.
Proof. simpl. by rewrite decide_True. Qed.

Lemma remove_sublist `{EqDecision A} (x : A) (l l' : list A) :
  Py.remove x l = Some l' → l' `sublist_of` l.
Proof.
  revert l'. induction l as [|y l IH]; intros l'; simpl; [done|].
  destruct (decide (y = x)) as [->|Hne].
  - intros [= ->]. by apply sublist_cons.
  - destruct (Py.remove x l) as [l0|] eqn:E; simpl; [|done].
    intros [= <-]. apply sublist_skip. by apply IH.
Qed.

Lemma remove_other `{EqDecision A} (x y : A) (l l' : list A) :
  Py.remove x l = Some l' → y ≠ x → y ∈ l → y ∈ l'.
Proof.
  intros Hr Hne Hin. apply remove_Some_elem in Hr as [_ Hp].
  rewrite Hp in Hin. apply elem_of_cons in Hin as [?|?]; [congruence | done].
Qed.

Lemma remove_NoDup_gone `{EqDecision A} (x : A) (l l' : list A) :
  NoDup l → Py.remove x l = Some l' → x ∉ l'.
Proof.
  intros Hnd Hr. apply remove_Some_elem in Hr as [_ Hp].
  rewrite Hp in Hnd. by apply NoDup_cons in Hnd as [? _].
Qed.

(** ** The qualification index *)

Lemma lookup_index_append (n : string) (k k' : string * string)
  (idx : gmap (string * string) (list string)) :
  index_append n k idx !! k' =
    if decide (k = k') then Some (default [] (idx !! k) ++ [n])%list else idx !! k'.
Proof.
  unfold index_append. rewrite lookup_insert.
  destruct (decide (k = k')) as [->|Hne].
  - f_equal. f_equal. case_bool_decide as Hs.
    + done.
    + rewrite lookup_insert_eq.
      destruct (idx !! k') eqn:E; [|done]. exfalso. apply Hs. by eauto.
  - case_bool_decide; [done|]. by rewrite lookup_insert_ne.
Qed.

Lemma index_fold_elem (n n' : string) (ks : list (string * string)) k' idx :
  n' ∈ default [] (foldl (λ i k, index_append n k i) idx ks !! k')
  ↔ n' ∈ default [] (idx !! k') ∨ (n' = n ∧ k' ∈ ks).
Proof.
  revert idx. induction ks as [|k ks IH]; intros idx; simpl.
  - split; [by left|]. intros [?|[_ ?%elem_of_nil]]; done.
  - rewrite IH, lookup_index_append.
    destruct (decide (k = k')) as [->|Hne]; simpl.
    + rewrite elem_of_app, list_elem_of_singleton, elem_of_cons. naive_solver.
    + rewrite elem_of_cons. naive_solver.
Qed.

Lemma add_teacher_inner_loop (n s : string) (gs : list string) (m : TimetableManager) :
  foldl (λ m grade, set_index (index_append n (s, grade)) m) m gs
  = mkManager (teachers m)
      (foldl (λ i k, index_append n k i) (subject_grade_teachers m)
         ((λ g, (s, g)) <$> gs))
      (timetable_cache m) (teacher_timetable m).
Proof.
  revert m. induction gs as [|g gs IH]; intros m; simpl.
  - by destruct m.
  - by rewrite IH.
Qed.

Lemma add_teacher_loops (n : string) (ss gs : list string) (m : TimetableManager) :
  foldl (λ m subject,
           foldl (λ m grade, set_index (index_append n (subject, grade)) m) m gs)
    m ss
  = mkManager (teachers m)
      (foldl (λ i k, index_append n k i) (subject_grade_teachers m)
         (pairs_of ss gs))
      (timetable_cache m) (teacher_timetable m).
Proof.
  revert m. induction ss as [|s ss IH]; intros m; simpl.
  - by destruct m.
  - rewrite add_teacher_inner_loop, IH. simpl.
    unfold pairs_of. simpl. by rewrite foldl_app.
Qed.

Lemma elem_of_pairs_of (ss gs : list string) (s g : string) :
  (s, g) ∈ pairs_of ss gs ↔ s ∈ ss ∧ g ∈ gs.
Proof.
  unfold pairs_of. rewrite list_elem_of_bind. split.
  - intros (s' & Hin & Hs). apply list_elem_of_fmap in Hin as (g' & [= -> ->] & Hg).
    done.
  - intros [Hs Hg]. exists s. split; [|done].
    apply list_elem_of_fmap. by exists g.
Qed.

Lemma accepted_add_teacher (r : Registration) (m : TimetableManager) :
  accepted r →
  register m r =
    set_index (λ idx, foldl (λ i k, index_append (reg_name r) k i) idx
                 (pairs_of (elements (parse_subjects (reg_subjects r)))
                    (elements (list_to_set (reg_grades r) : gset string))))
      (set_teachers
         <[reg_name r := mkTeacher (reg_name r) (parse_subjects (reg_subjects r))
                           (list_to_set (reg_grades r)) ∅]> m).
Proof.
  intros (Hn & Hs & Hg). unfold register, add_teacher.
  rewrite !bool_decide_eq_false_2 by done. simpl.
  by rewrite add_teacher_loops.
Qed.

Lemma rejected_add_teacher (r : Registration) (m : TimetableManager) :
  ¬ accepted r → register m r = m.
Proof.
  intros Hna. unfold register, add_teacher.
  destruct (bool_decide (reg_name r = "")) eqn:E1; [done|].
  destruct (bool_decide (reg_subjects r = "")) eqn:E2; [done|].
  destruct (bool_decide (reg_grades r = [])) eqn:E3; [done|].
  exfalso. apply Hna.
  apply bool_decide_eq_false in E1, E2, E3. done.
Qed.

#[global] Instance accepted_dec (r : Registration) : Decision (accepted r).
Proof. unfold accepted. apply _. Defined.

(** What one call does to the index and to the profile stored under a name. *)
Lemma register_index (r : Registration) (m : TimetableManager) n s g :
  n ∈ index_list (register m r) s g
  ↔ n ∈ index_list m s g
    ∨ (accepted r ∧ reg_name r = n ∧ s ∈ parse_subjects (reg_subjects r)
       ∧ g ∈ reg_grades r).
Proof.
  destruct (decide (accepted r)) as [Ha|Hna].
  - rewrite accepted_add_teacher by done. unfold index_list. simpl.
    rewrite index_fold_elem, elem_of_pairs_of, !elem_of_elements,
      elem_of_list_to_set.
    naive_solver.
  - rewrite rejected_add_teacher by done. naive_solver.
Qed.

Lemma register_teacher (r : Registration) (m : TimetableManager) n :
  teachers (register m r) !! n =
    if decide (accepted r ∧ reg_name r = n)
    then Some (mkTeacher n (parse_subjects (reg_subjects r))
                 (list_to_set (reg_grades r)) ∅)
    else teachers m !! n.
Proof.
  destruct (decide (accepted r)) as [Ha|Hna].
  - rewrite accepted_add_teacher by done. simpl. rewrite lookup_insert.
    destruct (decide (reg_name r = n)) as [<-|Hne].
    + by rewrite decide_True.
    + rewrite decide_False; [done | naive_solver].
  - rewrite rejected_add_teacher by done.
    rewrite decide_False; [done | naive_solver].
Qed.

Lemma register_all_snoc (rs : list Registration) (r : Registration) m :
  register_all (rs ++ [r]) m = register (register_all rs m) r.
Proof. unfold register_all. by rewrite foldl_app. Qed.

(** The index lists exactly the names ever registered for the pair. *)
Lemma index_history (rs : list Registration) (n s g : string) :
  n ∈ index_list (register_all rs init) s g
  ↔ ∃ r, r ∈ rs ∧ accepted r ∧ reg_name r = n
         ∧ s ∈ parse_subjects (reg_subjects r) ∧ g ∈ reg_grades r.
Proof.
  induction rs as [|r rs IH] using rev_ind.
  - unfold index_list. simpl. rewrite lookup_empty. simpl. split.
    + by intros ?%elem_of_nil.
    + by intros (r & ?%elem_of_nil & _).
  - rewrite register_all_snoc, register_index, IH. split.
    + intros [(r' & Hin & H)|H].
      * exists r'. split; [|done]. apply elem_of_app. by left.
      * exists r. split; [|done]. apply elem_of_app. right. by left.
    + intros (r' & Hin & H). apply elem_of_app in Hin as [Hin|Hin].
      * left. by exists r'.
      * apply list_elem_of_singleton in Hin as ->. by right.
Qed.

(** The profile stored under a name is that of its last accepted call. *)
Lemma stored_profile (rs : list Registration) (n : string) (t : Teacher) :
  teachers (register_all rs init) !! n = Some t →
  ∃ r, r ∈ rs ∧ accepted r ∧ reg_name r = n
       ∧ subjects t = parse_subjects (reg_subjects r)
       ∧ grades t = list_to_set (reg_grades r).
Proof.
  revert t. induction rs as [|r rs IH] using rev_ind; intros t.
  - simpl. by rewrite lookup_empty.
  - rewrite register_all_snoc, register_teacher.
    destruct (decide (accepted r ∧ reg_name r = n)) as [[Ha Hn]|Hno].
    + intros [= <-]. exists r. simpl. split; [|done].
      apply elem_of_app. right. by left.
    + intros (r' & Hin & H)%IH. exists r'. split; [|done].
      apply elem_of_app. by left.
Qed.

Lemma NoDup_fmap_same {A B} (f : A → B) (l : list A) (x y : A) :
  NoDup (f <$> l) → x ∈ l → y ∈ l → f x = f y → x = y.
Proof.
  induction l as [|a l IH]; simpl.
  - by intros _ ?%elem_of_nil.
  - intros [Hnin Hnd]%NoDup_cons Hx Hy Hf.
    apply elem_of_cons in Hx as [->|Hx]; apply elem_of_cons in Hy as [->|Hy].
    + done.
    + exfalso. apply Hnin. rewrite Hf. by apply list_elem_of_fmap_2.
    + exfalso. apply Hnin. rewrite <- Hf. by apply list_elem_of_fmap_2.
    + by apply IH.
Qed.

(** C8 (as the code has it). After any sequence of register calls on a fresh
    manager, a name is listed for a pair (s, g) exactly when some accepted
    call under that name, the current one or an overwritten one, had [s]
    among its subjects and [g] among its grade bands.  Hence the name is
    listed whenever the profile now stored has [s] and [g]; and when no name
    was registered twice it is listed only then. *)
Theorem index_lists_every_registration (rs : list Registration) :
  (∀ n s g,
     n ∈ index_list (register_all rs init) s g
     ↔ ∃ r, r ∈ rs ∧ accepted r ∧ reg_name r = n
            ∧ s ∈ parse_subjects (reg_subjects r) ∧ g ∈ reg_grades r)
  ∧ (∀ n t s g,
       teachers (register_all rs init) !! n = Some t →
       s ∈ subjects t → g ∈ grades t →
       n ∈ index_list (register_all rs init) s g)
  ∧ (NoDup (reg_name <$> filter accepted rs) →
     index_membership (register_all rs init)).
Proof.
  split; [|split].
  - intros n s g. apply index_history.
  - intros n t s g Ht Hs Hg. apply index_history.
    apply stored_profile in Ht as (r & Hin & Ha & Hn & Es & Eg).
    exists r. rewrite <- Es. rewrite Eg in Hg.
    by apply elem_of_list_to_set in Hg.
  - intros Hnd n t s g Ht. split.
    + intros (r' & Hin' & Ha' & Hn' & Hs' & Hg')%index_history.
      apply stored_profile in Ht as (r & Hin & Ha & Hn & Es & Eg).
      assert (r' = r) as ->.
      { apply (NoDup_fmap_same reg_name (filter accepted rs)); [done| | |congruence].
        - by apply list_elem_of_filter.
        - by apply list_elem_of_filter. }
      rewrite Es, Eg. by rewrite elem_of_list_to_set.
    + intros [Hs Hg]. apply index_history.
      apply stored_profile in Ht as (r & Hin & Ha & Hn & Es & Eg).
      exists r. rewrite <- Es. rewrite Eg in Hg.
      by apply elem_of_list_to_set in Hg.
Qed.

(** C8 as stated fails after a re-registration: "Asha" registered for
    Mathematics and then for Art stays listed for Mathematics. *)
Lemma index_membership_counterexample : ¬ index_membership reregistered_manager.
Proof.
  intros H.
  destruct (H "Asha"
              (mkTeacher "Asha" (parse_subjects "Art") (list_to_set ["1-5"]) ∅)
              "Mathematics" "1-5") as [Hfwd _].
  { reflexivity. }
  assert ("Asha" ∈ index_list reregistered_manager "Mathematics" "1-5") as Hin.
  { vm_compute. by left. }
  apply Hfwd in Hin as [Hs _]. simpl in Hs.
  unfold parse_subjects in Hs. apply elem_of_list_to_set in Hs.
  apply list_elem_of_filter in Hs as [_ Hs].
  vm_compute in Hs.
  apply elem_of_cons in Hs as [?|?%elem_of_nil]; done.
Qed.

(** ** Validation *)

Lemma initialize_schedule_cell (days time_slots : list string) (t : Teacher) d sl :
  cell_of (initialize_schedule days time_slots t) d sl
  = if decide (d ∈ days ∧ sl ∈ time_slots) then Some "" else None.
Proof.
  unfold cell_of, initialize_schedule. simpl.
  rewrite dict_comp_lookup.
  destruct (decide (d ∈ days)) as [Hd|Hd]; simpl.
  - rewrite dict_comp_lookup.
    destruct (decide (sl ∈ time_slots)) as [Hs|Hs].
    + by rewrite decide_True.
    + rewrite decide_False; [done | by intros [_ ?]].
  - rewrite decide_False; [done | by intros [? _]].
Qed.

Lemma generate_rejects_section_count (p : Params) (w : World) (s e : Z) :
  parse_time (start_time p) = Ok s → parse_time (end_time p) = Ok e →
  s < e → periods_per_day p ≤ e - s →
  length (classes_of p) ≠ 48%nat →
  generate_timetable p w =
    (("❌ Expected 48 classes (12 grades × 4 sections), got "
      +:+ Py.str (Z.of_nat (length (classes_of p))) +:+ ". Adjust sections.", []),
     mkWorld
       (set_teachers
          (fmap (initialize_schedule (days_of p)
                   (_create_time_slots s e (periods_per_day p))))
          (manager w))
       (random w) (filesystem w)).
Proof.
  intros Hs He Hlt Hspan Hlen.
  unfold generate_timetable, generate_timetable_try, bind, lift, modify.
  rewrite Hs, He.
  destruct (e <=? s) eqn:E; [lia|].
  destruct (e - s <? periods_per_day p) eqn:E'; [lia|].
  fold (classes_of p). fold (days_of p).
  rewrite bool_decide_eq_false_2 by done. done.
Qed.

(** C9. A call that passes the time-range checks and fails the class-count
    check ends with the failure message and an empty file list; every
    registered teacher keeps name, subjects and grade bands and has a schedule
    whose cells are exactly the run's days and slots, all free; both caches
    are as they were. *)
Theorem section_mismatch_resets_schedules (p : Params) (w : World) (s e : Z) :
  parse_time (start_time p) = Ok s → parse_time (end_time p) = Ok e →
  s < e → periods_per_day p ≤ e - s →
  length (classes_of p) ≠ 48%nat →
  ∃ status w',
    generate_timetable p w = ((status, []), w')
    ∧ failure status
    ∧ (∀ n, teachers (manager w') !! n
            = initialize_schedule (days_of p)
                (_create_time_slots s e (periods_per_day p))
              <$> teachers (manager w) !! n)
    ∧ (∀ n t', teachers (manager w') !! n = Some t' →
         ∀ d sl, cell_of t' d sl
                 = if decide (d ∈ days_of p
                              ∧ sl ∈ _create_time_slots s e (periods_per_day p))
                   then Some "" else None)
    ∧ timetable_cache (manager w') = timetable_cache (manager w)
    ∧ teacher_timetable (manager w') = teacher_timetable (manager w).
Proof.
  intros Hs He Hlt Hspan Hlen.
  eexists _, _. split; [by eapply generate_rejects_section_count|].
  simpl. split; [done|]. split; [|split; [|done]].
  - intros n. by rewrite lookup_fmap.
  - intros n t'. rewrite lookup_fmap.
    destruct (teachers (manager w) !! n) as [t|]; simpl; [|done].
    intros [= <-] d sl. apply initialize_schedule_cell.
Qed.

Lemma section_mismatch_resets_schedules_witness :
  ∃ status w',
    generate_timetable three_section_params example_world = ((status, []), w')
    ∧ failure status
    ∧ (∀ n, teachers (manager w') !! n
            = initialize_schedule (days_of three_section_params)
                (_create_time_slots 8 15 (periods_per_day three_section_params))
              <$> teachers (manager example_world) !! n)
    ∧ (∀ n t', teachers (manager w') !! n = Some t' →
         ∀ d sl, cell_of t' d sl
                 = if decide (d ∈ days_of three_section_params
                              ∧ sl ∈ _create_time_slots 8 15
                                       (periods_per_day three_section_params))
                   then Some "" else None)
    ∧ timetable_cache (manager w') = timetable_cache (manager example_world)
    ∧ teacher_timetable (manager w') = teacher_timetable (manager example_world).
Proof.
  apply (section_mismatch_resets_schedules three_section_params example_world 8 15);
    [reflexivity | reflexivity | lia | simpl; lia | vm_compute; lia].
Defined.

(** C3 (as the code has it). Each of the three validation failures returns a
    failure status and an empty file list and leaves the class cache and the
    teacher cache exactly as they were before the call: the caches are
    cleared only after all three checks have passed. *)
Theorem validation_failure_keeps_caches (p : Params) (w : World) (s e : Z) :
  parse_time (start_time p) = Ok s → parse_time (end_time p) = Ok e →
  e ≤ s ∨ e - s < periods_per_day p ∨ length (classes_of p) ≠ 48%nat →
  failure (generate_timetable p w).1.1
  ∧ (generate_timetable p w).1.2 = []
  ∧ timetable_cache (manager (generate_timetable p w).2)
    = timetable_cache (manager w)
  ∧ teacher_timetable (manager (generate_timetable p w).2)
    = teacher_timetable (manager w).
Proof.
  intros Hs He Hbad.
  destruct (decide (e ≤ s)) as [Hle|Hlt].
  { by rewrite (generate_rejects_end_before_start p w s e). }
  destruct (decide (e - s < periods_per_day p)) as [Hspan|Hspan].
  { rewrite (generate_rejects_short_span p w s e) by (done || lia). done. }
  destruct Hbad as [?|[?|Hlen]]; [lia | lia |].
  rewrite (generate_rejects_section_count p w s e) by (done || lia). done.
Qed.

Lemma validation_failure_keeps_caches_witness :
  failure (generate_timetable late_start_params example_world).1.1
  ∧ (generate_timetable late_start_params example_world).1.2 = []
  ∧ timetable_cache (manager (generate_timetable late_start_params example_world).2)
    = timetable_cache (manager example_world)
  ∧ teacher_timetable (manager (generate_timetable late_start_params example_world).2)
    = teacher_timetable (manager example_world).
Proof.
  apply (validation_failure_keeps_caches late_start_params example_world 15 8);
    [reflexivity | reflexivity | left; lia].
Defined.

(** C3 as stated fails: after a successful run, a call rejected for its time
    range returns a failure status and both caches still hold the grids of
    the earlier run. *)
Lemma failed_call_keeps_grids_counterexample :
  ¬ failed_call_leaves_no_grids late_start_params
      (generate_timetable example_params example_world).2.
Proof.
  intros H.
  destruct H as [Hc _]; [by vm_compute|].
  apply (f_equal (λ m, bool_decide (is_Some (m !! "Grade 1 A")))) in Hc.
  vm_compute in Hc. discriminate.
Qed.

(** ** Running the monad *)

Lemma bind_ok {A B} (m : M A) (k : A → M B) (w w' : World) (a : A) :
  m w = (Ok a, w') → bind m k w = k a w'.
Proof. intros H. unfold bind. by rewrite H. Qed.

Lemma extends_refl (w : World) : extends w w.
Proof.
  repeat split. intros n. destruct (teachers (manager w) !! n); [|done].
  intros d sl v H. split; [by eauto | done].
Qed.

Lemma teachers_grow_trans (a b c : gmap string Teacher) :
  teachers_grow a b → teachers_grow b c → teachers_grow a c.
Proof.
  intros Hab Hbc n. specialize (Hab n). specialize (Hbc n).
  destruct (a !! n) as [ta|], (b !! n) as [tb|], (c !! n) as [tc|]; try done.
  intros d sl v Hv. destruct (Hab d sl v Hv) as [[vb Hvb] Hkeep].
  destruct (Hbc d sl vb Hvb) as [Hsome Hkeep'].
  split; [done|]. intros Hne.
  specialize (Hkeep Hne). rewrite Hkeep in Hvb. injection Hvb as <-.
  by apply Hkeep'.
Qed.

Lemma extends_trans (a b c : World) : extends a b → extends b c → extends a c.
Proof.
  intros (H1 & H2 & H3 & H4 & H5) (H1' & H2' & H3' & H4' & H5').
  repeat split; try congruence. by eapply teachers_grow_trans.
Qed.

Lemma extends_advance (w : World) : extends w (advance w).
Proof. apply (extends_refl w). Qed.

(** A loop whose body always returns and keeps an invariant returns and
    keeps it. *)
Lemma foldM_total {A B} (body : B → A → M B) (I : B → list A → World → Prop) :
  (∀ b x rest w, I b (x :: rest) w →
     ∃ b' w', body b x w = (Ok b', w') ∧ extends w w' ∧ I b' rest w') →
  ∀ l b w, I b l w →
    ∃ b' w', foldM body b l w = (Ok b', w') ∧ extends w w' ∧ I b' [] w'.
Proof.
  intros Hbody l. induction l as [|x l IH]; intros b w HI; simpl.
  - exists b, w. split; [done|]. split; [apply extends_refl | done].
  - destruct (Hbody b x l w HI) as (b1 & w1 & Hrun & Hext & HI1).
    destruct (IH b1 w1 HI1) as (b2 & w2 & Hrun2 & Hext2 & HI2).
    exists b2, w2. split; [|split; [by eapply extends_trans | done]].
    by rewrite (bind_ok _ _ _ _ _ Hrun).
Qed.

(** *** Draws *)

Lemma draw_advance (w : World) : ∃ r, draw w = (Ok r, advance w).
Proof.
  unfold draw, advance. destruct w as [m rs fs]. simpl.
  destruct rs as [|r rs]; simpl; by eauto.
Qed.

Lemma random_choice_total {A} (seq : list A) (w : World) :
  seq ≠ [] → ∃ x, x ∈ seq ∧ random_choice seq w = (Ok x, advance w).
Proof.
  intros Hne. destruct seq as [|x0 seq]; [done|].
  unfold random_choice. destruct (draw_advance w) as [r Hr].
  rewrite (bind_ok _ _ _ _ _ Hr). unfold ret.
  eexists. split; [|done].
  apply list_elem_of_In, nth_In. apply Nat.mod_upper_bound. simpl. lia.
Qed.

Lemma nth_delete_perm {A} (l : list A) (i : nat) (x : A) :
  (i < length l)%nat → l ≡ₚ nth i l x :: delete i l.
Proof.
  revert i. induction l as [|y l IH]; intros i Hi; simpl in *; [lia|].
  destruct i as [|i]; simpl; [done|].
  rewrite (IH i) at 1 by lia. apply Permutation_swap.
Qed.

Lemma sample_loop_total {A} (k : nat) (pool : list A) (w : World) :
  (k ≤ length pool)%nat →
  ∃ l w', sample_loop pool k w = (Ok l, w') ∧ extends w w'
          ∧ l ⊆+ pool ∧ length l = k.
Proof.
  revert pool w. induction k as [|k IH]; intros pool w Hk; simpl.
  - exists [], w. split; [done|]. split; [apply extends_refl|].
    split; [apply submseteq_nil_l | done].
  - destruct pool as [|x pool]; [simpl in Hk; lia|].
    destruct (draw_advance w) as [r Hr].
    rewrite (bind_ok _ _ _ _ _ Hr).
    set (i := (r mod length (x :: pool))%nat).
    assert (i < length (x :: pool))%nat as Hi.
    { apply Nat.mod_upper_bound. simpl. lia. }
    destruct (IH (delete i (x :: pool)) (advance w)) as (l & w' & Hrun & Hext & Hsub & Hlen).
    { rewrite length_delete by (apply lookup_lt_is_Some; lia). simpl in *. lia. }
    rewrite (bind_ok _ _ _ _ _ Hrun). unfold ret.
    eexists _, w'. split; [done|].
    split; [eapply extends_trans; [apply extends_advance | done]|].
    split; [|simpl; by rewrite Hlen].
    rewrite (nth_delete_perm (x :: pool) i x Hi) at 2.
    by apply submseteq_skip.
Qed.

Lemma random_sample_total {A} (population : list A) (k : Z) (w : World) :
  0 ≤ k ≤ Z.of_nat (length population) →
  ∃ l w', random_sample population k w = (Ok l, w') ∧ extends w w'
          ∧ l ⊆+ population.
Proof.
  intros Hk. unfold random_sample.
  destruct (k <? 0) eqn:E1; [lia|].
  destruct (Z.of_nat (length population) <? k) eqn:E2; [lia|]. simpl.
  destruct (sample_loop_total (Z.to_nat k) population w) as (l & w' & H1 & H2 & H3 & _);
    [lia|].
  by exists l, w'.
Qed.

(** ** Teacher schedules *)

Lemma is_available_cell (t : Teacher) (d sl : string) :
  is_available t d sl = true ↔ cell_of t d sl = None ∨ cell_of t d sl = Some "".
Proof.
  unfold is_available, cell_of.
  destruct (schedule t !! d) as [row|]; simpl.
  - destruct (row !! sl) as [v|]; simpl.
    + rewrite bool_decide_eq_true. split; [intros ->; by right|].
      by intros [?|[= ->]].
    + split; [by left | done].
  - rewrite lookup_empty. split; [by left | done].
Qed.

Lemma assign_cell_same (t : Teacher) (d sl c v : string) :
  cell_of t d sl = Some v → cell_of (assign t d sl c) d sl = Some c.
Proof.
  unfold cell_of, assign. destruct (schedule t !! d) as [row|] eqn:Er; simpl; [|done].
  intros Hv. rewrite bool_decide_eq_true_2 by eauto. simpl.
  rewrite lookup_insert_eq. simpl. by rewrite lookup_insert_eq.
Qed.

Lemma assign_cell_other (t : Teacher) (d sl c d' sl' : string) :
  (d', sl') ≠ (d, sl) → cell_of (assign t d sl c) d' sl' = cell_of t d' sl'.
Proof.
  intros Hne. unfold cell_of, assign.
  destruct (schedule t !! d) as [row|] eqn:Er; [|done].
  case_bool_decide; [|done]. simpl.
  destruct (decide (d' = d)) as [->|Hd].
  - rewrite lookup_insert_eq, Er. simpl.
    rewrite lookup_insert_ne; [done | congruence].
  - by rewrite lookup_insert_ne.
Qed.

Lemma teachers_grow_refl (ts : gmap string Teacher) : teachers_grow ts ts.
Proof.
  intros n. destruct (ts !! n); [|done].
  intros d sl v H. split; [by eauto | done].
Qed.

Lemma teachers_grow_book (ts : gmap string Teacher) (r : string) (t : Teacher)
  (d sl c : string) :
  ts !! r = Some t → cell_of t d sl = Some "" →
  teachers_grow ts (<[r := assign t d sl c]> ts).
Proof.
  intros Hr Hfree n. destruct (decide (r = n)) as [<-|Hne].
  - rewrite Hr, lookup_insert_eq. intros d' sl' v Hv.
    destruct (decide ((d', sl') = (d, sl))) as [[= -> ->]|Hother].
    + rewrite (assign_cell_same t d sl c "" Hfree).
      split; [by eauto|]. intros Hv'. congruence.
    + rewrite assign_cell_other by done. split; [by eauto | done].
  - rewrite lookup_insert_ne by done. apply teachers_grow_refl.
Qed.

Lemma teachers_grow_is_Some (ts ts' : gmap string Teacher) (n : string) :
  teachers_grow ts ts' → is_Some (ts !! n) ↔ is_Some (ts' !! n).
Proof.
  intros H. specialize (H n).
  destruct (ts !! n), (ts' !! n); try done; split; intros [? ?]; by eauto.
Qed.

Lemma teachers_grow_dom (ts ts' : gmap string Teacher) :
  teachers_grow ts ts' → dom ts' = dom ts.
Proof.
  intros H. apply set_eq. intros n. rewrite !elem_of_dom.
  symmetry. by apply teachers_grow_is_Some.
Qed.

Lemma booked_grow (ts ts' : gmap string Teacher) (r d sl c : string) :
  teachers_grow ts ts' → c ≠ "" → booked ts r d sl c → booked ts' r d sl c.
Proof.
  intros Hg Hc (t & Ht & Hcell). specialize (Hg r). rewrite Ht in Hg.
  destruct (ts' !! r) as [t'|] eqn:Et'; [|done].
  exists t'. split; [done|]. by apply (Hg d sl c Hcell).
Qed.

Lemma cell_ok_grow (p : Params) (ts ts' : gmap string Teacher) (c d sl v : string) :
  teachers_grow ts ts' → c ≠ "" → cell_ok p ts c d sl v → cell_ok p ts' c d sl v.
Proof.
  intros Hg Hc [?|[?|(s & r & Hv & Hs & Hr)]]; [by left | by right; left |].
  right; right. exists s, r. split; [done|]. split; [done|].
  destruct Hr as [?|Hb]; [by left | right]. by eapply booked_grow.
Qed.

Lemma schedules_cover_grow (days slots : list string) (ts ts' : gmap string Teacher) :
  teachers_grow ts ts' → schedules_cover days slots ts → schedules_cover days slots ts'.
Proof.
  intros Hg Hc n t' d sl Ht' Hd Hsl. specialize (Hg n). rewrite Ht' in Hg.
  destruct (ts !! n) as [t|] eqn:Et; [|done].
  destruct (Hc n t d sl Et Hd Hsl) as [v Hv]. by apply (Hg d sl v Hv).
Qed.

Lemma index_registered_extends (w w' : World) :
  extends w w' → index_registered (manager w) → index_registered (manager w').
Proof.
  intros (Hidx & _ & _ & _ & Hg) Hreg. unfold index_registered in *. rewrite Hidx.
  eapply map_Forall_impl; [done|]. intros key names Hn. simpl in *.
  eapply Forall_impl; [done|]. intros n Hs. simpl in *.
  by apply (teachers_grow_is_Some _ _ n Hg).
Qed.

(** ** Choosing a teacher *)

Lemma available_among_total (ts : gmap string Teacher) (d sl : string)
  (names : list string) :
  Forall (λ n, is_Some (ts !! n)) names →
  available_among ts d sl names = Ok (filter (λ n, free_in ts d sl n) names).
Proof.
  induction names as [|n names IH]; intros Hall; simpl; [done|].
  apply Forall_cons in Hall as [[t Ht] Hall].
  unfold getitem. rewrite Ht, (IH Hall).
  rewrite filter_cons.
  destruct (decide (free_in ts d sl n)) as [Hf|Hf];
    unfold free_in in Hf; rewrite Ht in Hf;
    destruct (is_available t d sl); simpl in Hf; done.
Qed.

Lemma get_available_teachers_total (s gk d sl : string) (w : World) :
  index_registered (manager w) →
  get_available_teachers s gk d sl w = (Ok (available_list (manager w) s gk d sl), w).
Proof.
  intros Hreg. unfold get_available_teachers, available_list, index_list.
  rewrite available_among_total; [done|].
  destruct (subject_grade_teachers (manager w) !! (s, gk)) as [names|] eqn:E; simpl.
  - by apply (Hreg _ _ E).
  - by apply Forall_nil.
Qed.

Lemma elem_of_available_list (m : TimetableManager) (s gk d sl r : string) :
  r ∈ available_list m s gk d sl
  ↔ r ∈ index_list m s gk
    ∧ ∃ t, teachers m !! r = Some t ∧ is_available t d sl = true.
Proof.
  unfold available_list. rewrite list_elem_of_filter. unfold free_in.
  destruct (teachers m !! r) as [t|]; simpl.
  - rewrite Is_true_true. split.
    + intros [? ?]. by eauto.
    + intros [? (t' & [= <-] & ?)]. done.
  - split; [by intros [[] _] | by intros [_ (? & ? & _)]].
Qed.

(** What [assign_teacher] returns and does. *)
Lemma assign_teacher_total (s gk d sl c : string) (w : World) :
  index_registered (manager w) →
  (∀ n t, teachers (manager w) !! n = Some t → is_Some (cell_of t d sl)) →
  ∃ r w', assign_teacher s gk d sl c w = (Ok r, w')
    ∧ ((available_list (manager w) s gk d sl = [] ∧ r = "TBD" ∧ w' = w)
       ∨ (r ∈ available_list (manager w) s gk d sl
          ∧ ∃ t, teachers (manager w) !! r = Some t
                 ∧ cell_of t d sl = Some ""
                 ∧ w' = mkWorld (set_teachers <[r := assign t d sl c]> (manager w))
                          (tail (random w)) (filesystem w))).
Proof.
  intros Hreg Hcells. unfold assign_teacher.
  rewrite (bind_ok _ _ _ _ _ (get_available_teachers_total s gk d sl w Hreg)).
  destruct (available_list (manager w) s gk d sl) as [|a l] eqn:Ea.
  - exists "TBD", w. split; [done|]. by left.
  - destruct (random_choice_total (a :: l) w) as (r & Hin & Hrun); [done|].
    rewrite (bind_ok _ _ _ _ _ Hrun).
    rewrite <- Ea in Hin.
    pose proof Hin as Hin'.
    apply elem_of_available_list in Hin' as (_ & t & Ht & Hav).
    unfold bind at 1. simpl. unfold getitem. rewrite Ht. simpl.
    exists r. eexists. split; [reflexivity|]. right. rewrite <- Ea.
    split; [done|]. exists t. split; [done|]. split; [|done].
    apply is_available_cell in Hav as [Hn|Hs]; [|done].
    destruct (Hcells r t Ht) as [v Hv]. congruence.
Qed.

Lemma extends_book (w : World) (r : string) (t : Teacher) (d sl c : string) :
  teachers (manager w) !! r = Some t → cell_of t d sl = Some "" →
  extends w (mkWorld (set_teachers <[r := assign t d sl c]> (manager w))
               (tail (random w)) (filesystem w)).
Proof.
  intros Hr Hfree. repeat split. simpl. by apply teachers_grow_book.
Qed.

(** ** Cells and pools of one class *)

Lemma grid_cell_set (g : Grid) (sl d v : string) (row : gmap string string) t' d' :
  g !! sl = Some row →
  grid_cell (<[sl := <[d := v]> row]> g) t' d'
  = if decide (t' = sl ∧ d' = d) then Some v else grid_cell g t' d'.
Proof.
  intros Hrow. unfold grid_cell.
  destruct (decide (t' = sl)) as [->|Ht].
  - rewrite lookup_insert_eq, Hrow. simpl.
    destruct (decide (d' = d)) as [->|Hd].
    + rewrite lookup_insert_eq. by rewrite decide_True.
    + rewrite lookup_insert_ne by done. rewrite decide_False; [done | by intros [_ ?]].
  - rewrite lookup_insert_ne by done. rewrite decide_False; [done | by intros [? _]].
Qed.

Lemma grid_cell_row (g : Grid) (t d : string) :
  is_Some (grid_cell g t d) → is_Some (g !! t).
Proof.
  unfold grid_cell. destruct (g !! t); [by eauto|]. by intros [? ?].
Qed.

Lemma label_nonempty (s r : string) : s +:+ " (" +:+ r +:+ ")" ≠ "".
Proof. by destruct s. Qed.

Lemma pool_of_sub (p : Params) (slots : list string) (d : string) :
  pool_of p slots d ⊆ slots.
Proof.
  unfold pool_of, saturday_slots_of, Py.slice_to.
  repeat case_bool_decide; try done;
    destruct (0 <=? _); intros x Hx;
    (eapply elem_of_sublist; [done | apply sublist_take]).
Qed.

Lemma open_pool_sub_pool (p : Params) (slots : list string) (d : string) :
  open_pool p slots d ⊆ pool_of p slots d.
Proof.
  unfold open_pool. case_bool_decide; [|done].
  destruct (Py.remove _ _) as [l'|] eqn:E; simpl; [|done].
  intros x Hx. eapply elem_of_sublist; [done|]. by eapply remove_sublist.
Qed.

Lemma open_pool_sub (p : Params) (slots : list string) (d : string) :
  open_pool p slots d ⊆ slots.
Proof.
  intros x Hx. by apply (pool_of_sub p slots d), open_pool_sub_pool.
Qed.

Lemma class_inv_grow (p : Params) (days slots : list string) (c : string)
  (st : Grid * Pools) (ts ts' : gmap string Teacher) :
  teachers_grow ts ts' → c ≠ "" →
  class_inv p days slots c st ts → class_inv p days slots c st ts'.
Proof.
  intros Hg Hc (H1 & H2 & H3 & H4 & H5).
  split; [done|]. split; [done|]. split; [|done].
  intros t d v Hv. eapply cell_ok_grow; [done | done | by apply H3].
Qed.

(** Filling one open cell keeps the state of the class well formed. *)
Lemma class_inv_step (p : Params) (days slots : list string) (c : string)
  (st : Grid * Pools) (ts : gmap string Teacher) (s r d sl : string)
  (row : gmap string string) (l l' : list string) :
  class_inv p days slots c st ts →
  subject_of_run p s → (r = "TBD" ∨ booked ts r d sl c) →
  d ∈ days → st.1 !! sl = Some row → st.2 !! d = Some l →
  Py.remove sl l = Some l' →
  class_inv p days slots c
    (<[sl := <[d := s +:+ " (" +:+ r +:+ ")"]> row]> st.1, <[d := l']> st.2) ts.
Proof.
  intros (Hshape & Hpools & Hcells & Hfilled & Hfrozen) Hs Hr Hd Hrow Hl Hrem.
  pose proof (remove_Some_elem _ _ _ Hrem) as [Hsl_l Hperm].
  destruct (Hpools d Hd) as (l0 & El0 & Hsub). rewrite Hl in El0. injection El0 as <-.
  assert (sl ∈ slots) as Hsl by (by apply (open_pool_sub p slots d), Hsub).
  unfold class_inv. simpl. split; [|split; [|split; [|split]]].
  - intros t d0. rewrite (grid_cell_set _ _ _ _ _ _ _ Hrow).
    destruct (decide (t = sl ∧ d0 = d)) as [[-> ->]|Hne]; [|apply Hshape].
    split; [done | by eauto].
  - intros d0 Hd0. destruct (decide (d = d0)) as [<-|Hne].
    + rewrite lookup_insert_eq. exists l'. split; [done|].
      intros x Hx. apply Hsub. eapply elem_of_sublist; [done|].
      by eapply remove_sublist.
    + rewrite lookup_insert_ne by done. by apply Hpools.
  - intros t d0 v. rewrite (grid_cell_set _ _ _ _ _ _ _ Hrow).
    destruct (decide (t = sl ∧ d0 = d)) as [[-> ->]|Hne]; [|apply Hcells].
    intros [= <-]. right; right. by exists s, r.
  - intros d0 t Hd0 Ht. rewrite (grid_cell_set _ _ _ _ _ _ _ Hrow).
    destruct (decide (t = sl ∧ d0 = d)) as [[-> ->]|Hne].
    { right. eexists. split; [done|]. apply label_nonempty. }
    destruct (Hfilled d0 t Hd0 Ht) as [(l1 & El1 & Hin)|Hfull]; [|by right].
    left. destruct (decide (d = d0)) as [<-|Hdne].
    + rewrite lookup_insert_eq. exists l'. split; [done|].
      rewrite Hl in El1. injection El1 as <-.
      eapply remove_other; [done | | done]. intros ->. by apply Hne.
    + rewrite lookup_insert_ne by done. by eauto.
  - intros d0 t Hd0 Ht Hnot. rewrite (grid_cell_set _ _ _ _ _ _ _ Hrow).
    destruct (decide (t = sl ∧ d0 = d)) as [[-> ->]|Hne]; [|by apply Hfrozen].
    exfalso. apply Hnot. by apply Hsub.
Qed.

Lemma set_cell_ok (time day label : string) (g : Grid) (row : gmap string string) :
  g !! time = Some row →
  set_cell time day label g = Ok (<[time := <[day := label]> row]> g).
Proof. intros H. unfold set_cell. by rewrite H. Qed.

Lemma remove_slot_ok (day time : string) (av : Pools) (l l' : list string) :
  av !! day = Some l → Py.remove time l = Some l' →
  remove_slot day time av = Ok (<[day := l']> av).
Proof. intros H1 H2. unfold remove_slot. by rewrite H1, H2. Qed.

(** What [book_cell] returns and does, in both cases of [assign_teacher]. *)
Lemma book_cell_spec (s gk d sl c : string) (st : Grid * Pools) (w : World)
  (row : gmap string string) (l : list string) :
  index_registered (manager w) →
  (∀ n t, teachers (manager w) !! n = Some t → is_Some (cell_of t d sl)) →
  st.1 !! sl = Some row → st.2 !! d = Some l → sl ∈ l →
  ∃ r w' l',
    book_cell s gk d sl c st w
    = (Ok (<[sl := <[d := s +:+ " (" +:+ r +:+ ")"]> row]> st.1, <[d := l']> st.2), w')
    ∧ Py.remove sl l = Some l'
    ∧ ((available_list (manager w) s gk d sl = [] ∧ r = "TBD" ∧ w' = w)
       ∨ (r ∈ available_list (manager w) s gk d sl
          ∧ ∃ t, teachers (manager w) !! r = Some t
                 ∧ cell_of t d sl = Some ""
                 ∧ w' = mkWorld (set_teachers <[r := assign t d sl c]> (manager w))
                          (tail (random w)) (filesystem w))).
Proof.
  intros Hreg Hcells Hrow Hl Hin.
  destruct (assign_teacher_total s gk d sl c w Hreg Hcells) as (r & w' & Hrun & Hcase).
  destruct (remove_is_Some sl l Hin) as [l' Hl'].
  exists r, w', l'. split; [|done].
  unfold book_cell. rewrite (bind_ok _ _ _ _ _ Hrun).
  unfold lift, bind, ret.
  by rewrite (set_cell_ok _ _ _ _ _ Hrow), (remove_slot_ok _ _ _ _ _ Hl Hl').
Qed.

(** [book_cell] on an open cell of a well-formed class. *)
Lemma book_cell_total (p : Params) (days slots : list string)
  (s gk d sl c : string) (st : Grid * Pools) (w : World) (l : list string) :
  index_registered (manager w) →
  schedules_cover days slots (teachers (manager w)) →
  c ≠ "" → subject_of_run p s →
  class_inv p days slots c st (teachers (manager w)) →
  d ∈ days → st.2 !! d = Some l → sl ∈ l →
  ∃ st' w' l',
    book_cell s gk d sl c st w = (Ok st', w') ∧ extends w w'
    ∧ class_inv p days slots c st' (teachers (manager w'))
    ∧ Py.remove sl l = Some l' ∧ st'.2 = <[d := l']> st.2.
Proof.
  intros Hreg Hcover Hc Hs Hinv Hd Hl Hin.
  pose proof Hinv as (Hshape & Hpools & _).
  destruct (Hpools d Hd) as (l0 & El0 & Hsub). rewrite Hl in El0. injection El0 as <-.
  assert (sl ∈ slots) as Hsl by (by apply (open_pool_sub p slots d), Hsub).
  destruct (grid_cell_row st.1 sl d) as [row Hrow]; [by apply Hshape|].
  destruct (book_cell_spec s gk d sl c st w row l) as (r & w' & l' & Hrun & Hrem & Hcase);
    [done | by (intros n t Ht; eapply Hcover) | done | done | done |].
  eexists _, w', l'. split; [done|].
  destruct Hcase as [(_ & -> & ->)|(_ & t & Ht & Hfree & ->)].
  - split; [apply extends_refl|]. split; [|done].
    eapply class_inv_step; try done. by left.
  - pose proof (extends_book w r t d sl c Ht Hfree) as Hext.
    split; [done|]. split; [|done].
    eapply class_inv_step; try done.
    + eapply class_inv_grow; [apply Hext | done | done].
    + right. exists (assign t d sl c). simpl. rewrite lookup_insert_eq.
      split; [done|]. by eapply assign_cell_same.
Qed.

(** ** The three phases of one class *)

Lemma remove_None `{EqDecision A} (x : A) (l : list A) :
  x ∉ l → Py.remove x l = None.
Proof.
  intros Hnin. destruct (Py.remove x l) as [l'|] eqn:E; [|done].
  by apply remove_Some_elem in E as [? _].
Qed.

Lemma initial_grid_cell (days slots : list string) (t d : string) :
  grid_cell (dict_comp (λ _, dict_comp (λ _, "") days) slots) t d
  = if decide (t ∈ slots ∧ d ∈ days) then Some "" else None.
Proof.
  unfold grid_cell. rewrite dict_comp_lookup.
  destruct (decide (t ∈ slots)) as [Ht|Ht]; simpl.
  - rewrite dict_comp_lookup. destruct (decide (d ∈ days)) as [Hd|Hd].
    + by rewrite decide_True.
    + rewrite decide_False; [done | by intros [_ ?]].
  - rewrite decide_False; [done | by intros [? _]].
Qed.

(** Lunch placement, lines 180-184: every day's lunch cell gets the label and
    lunch leaves every day's pool once. *)
Lemma place_lunch_total (p : Params) (days slots : list string) (w : World) :
  NoDup days →
  ∃ st w', place_lunch p days slots
             (dict_comp (λ _, dict_comp (λ _, "") days) slots,
              dict_comp (pool_of p slots) days) w = (Ok st, w')
    ∧ extends w w'
    ∧ (∀ t d, grid_cell st.1 t d
              = if decide (t ∈ slots ∧ d ∈ days)
                then Some (lunch_or_blank p slots t) else None)
    ∧ (∀ d, st.2 !! d = if decide (d ∈ days) then Some (open_pool p slots d) else None).
Proof.
  intros Hnd. unfold place_lunch.
  case_bool_decide as Hlunch.
  - destruct (foldM_total
      (λ st day,
         timetable <- lift (set_cell (lunch_time p) day LUNCH st.1) ;;
         slots0 <- lift (getitem repr st.2 day) ;;
         if bool_decide (lunch_time p ∈ slots0) then
           available_slots <- lift (remove_slot day (lunch_time p) st.2) ;;
           ret (timetable, available_slots)
         else ret (timetable, st.2))
      (λ st rest _, ∃ done, days = (done ++ rest)%list ∧ lunch_placed p days slots done st)
      ) with (l := days)
           (b := (dict_comp (λ _, dict_comp (λ _, "") days) slots,
                  dict_comp (pool_of p slots) days)) (w := w)
      as (st & w' & Hrun & Hext & done & Hdone & Hgrid & Hpools).
    + intros st x rest w0 (done & Hdays & Hgrid & Hpools).
      assert (x ∈ days) as Hx.
      { rewrite Hdays. apply elem_of_app. right. by left. }
      assert (x ∉ done) as Hxd.
      { rewrite Hdays in Hnd. apply NoDup_app in Hnd as (_ & Hdisj & _).
        intros Hin. apply (Hdisj x Hin). by left. }
      destruct (grid_cell_row st.1 (lunch_time p) x) as [row Hrow].
      { rewrite Hgrid. rewrite decide_True by done. by eauto. }
      assert (st.2 !! x = Some (pool_of p slots x)) as Hpx.
      { rewrite Hpools. rewrite decide_True by done. by rewrite decide_False. }
      assert (∃ av', (if bool_decide (lunch_time p ∈ pool_of p slots x) then
                 available_slots <- lift (remove_slot x (lunch_time p) st.2) ;;
                 ret (<[lunch_time p := <[x := LUNCH]> row]> st.1, available_slots)
               else ret (<[lunch_time p := <[x := LUNCH]> row]> st.1, st.2)) w0
              = (Ok (<[lunch_time p := <[x := LUNCH]> row]> st.1, av'), w0)
              ∧ ∀ d, av' !! d = if decide (d = x) then Some (open_pool p slots x)
                                else st.2 !! d) as (av' & Hstep & Hav').
      { unfold open_pool. rewrite (bool_decide_eq_true_2 (lunch_time p ∈ slots)) by done.
        case_bool_decide as Hin.
        - destruct (remove_is_Some _ _ Hin) as [l' Hl'].
          exists (<[x := l']> st.2). split.
          + unfold bind, lift, ret. by rewrite (remove_slot_ok _ _ _ _ _ Hpx Hl').
          + intros d. rewrite Hl'. simpl. rewrite lookup_insert.
            destruct (decide (x = d)) as [->|Hne].
            * by rewrite decide_True.
            * rewrite decide_False; [done | congruence].
        - exists st.2. split; [done|].
          intros d. rewrite remove_None by done. simpl.
          destruct (decide (d = x)) as [->|Hne]; done. }
      exists (<[lunch_time p := <[x := LUNCH]> row]> st.1, av'), w0.
      split.
      { unfold bind at 1, lift at 1. rewrite (set_cell_ok _ _ _ _ _ Hrow).
        unfold bind at 1, lift at 1, getitem. rewrite Hpx. done. }
      split; [apply extends_refl|].
      exists (done ++ [x])%list. split; [by rewrite Hdays, <- app_assoc|].
      split; simpl.
      * intros t d. rewrite (grid_cell_set _ _ _ _ _ _ _ Hrow), Hgrid.
        destruct (decide (t = lunch_time p ∧ d = x)) as [[-> ->]|Hne].
        -- rewrite decide_True by done. f_equal.
           rewrite decide_True; [done|]. split; [done|].
           apply elem_of_app. right. by left.
        -- destruct (decide (t ∈ slots ∧ d ∈ days)) as [Hin|]; [|done]. f_equal.
           destruct (decide (t = lunch_time p ∧ d ∈ done)) as [[-> Hd]|Hno].
           ++ rewrite decide_True; [done|]. split; [done|]. apply elem_of_app. by left.
           ++ rewrite decide_False; [done|]. intros [-> Hd].
              apply elem_of_app in Hd as [Hd|Hd%list_elem_of_singleton].
              ** by apply Hno.
              ** by apply Hne.
      * intros d. rewrite Hav', Hpools.
        destruct (decide (d = x)) as [->|Hne].
        -- rewrite decide_True by done. f_equal. rewrite decide_True; [done|].
           apply elem_of_app. right. by left.
        -- destruct (decide (d ∈ days)) as [Hd|]; [|done]. f_equal.
           destruct (decide (d ∈ done)) as [Hdd|Hdd].
           ++ rewrite decide_True; [done|]. apply elem_of_app. by left.
           ++ rewrite decide_False; [done|].
              intros [?|?%list_elem_of_singleton]%elem_of_app; done.
    + exists []. split; [done|]. split; simpl.
      * intros t d. rewrite initial_grid_cell.
        destruct (decide (t ∈ slots ∧ d ∈ days)); [|done]. f_equal.
        rewrite decide_False; [done|]. by intros [_ ?%elem_of_nil].
      * intros d. rewrite dict_comp_lookup.
        destruct (decide (d ∈ days)); [|done].
        destruct (decide (d ∈ [])) as [Hin|]; [|done]. by apply elem_of_nil in Hin.
    + exists st, w'. split; [done|]. split; [done|].
      rewrite app_nil_r in Hdone. subst done. split.
      * intros t d. rewrite Hgrid.
        destruct (decide (t ∈ slots ∧ d ∈ days)) as [[Ht Hd]|]; [|done]. f_equal.
        unfold lunch_or_blank.
        destruct (decide (t = lunch_time p ∧ d ∈ days)) as [[-> _]|Hno].
        -- by rewrite bool_decide_eq_true_2.
        -- rewrite bool_decide_eq_false_2; [done|]. intros [_ ->]. by apply Hno.
      * intros d. rewrite Hpools.
        destruct (decide (d ∈ days)); done.
  - eexists _, w. split; [done|]. split; [apply extends_refl|]. simpl. split.
    + intros t d. rewrite initial_grid_cell.
      destruct (decide (t ∈ slots ∧ d ∈ days)); [|done]. f_equal.
      unfold lunch_or_blank. rewrite bool_decide_eq_false_2; [done|]. by intros [? _].
    + intros d. rewrite dict_comp_lookup.
      destruct (decide (d ∈ days)); [|done]. f_equal.
      unfold open_pool. by rewrite bool_decide_eq_false_2.
Qed.

(** After lunch placement the class is well formed. *)
Lemma class_inv_after_lunch (p : Params) (days slots : list string) (c : string)
  (st : Grid * Pools) (ts : gmap string Teacher) :
  (∀ t d, grid_cell st.1 t d
          = if decide (t ∈ slots ∧ d ∈ days)
            then Some (lunch_or_blank p slots t) else None) →
  (∀ d, st.2 !! d = if decide (d ∈ days) then Some (open_pool p slots d) else None) →
  class_inv p days slots c st ts.
Proof.
  intros Hgrid Hpools. split; [|split; [|split; [|split]]].
  - intros t d. rewrite Hgrid.
    destruct (decide (t ∈ slots ∧ d ∈ days)); split; try done; by eauto.
  - intros d Hd. rewrite Hpools, decide_True by done. by eauto.
  - intros t d v. rewrite Hgrid.
    destruct (decide (t ∈ slots ∧ d ∈ days)); [|done].
    intros [= <-]. unfold lunch_or_blank. case_bool_decide; [by right; left | by left].
  - intros d t Hd Ht. left. rewrite Hpools, decide_True by done. by eauto.
  - intros d t Hd Ht _. rewrite Hgrid. by rewrite decide_True.
Qed.

Lemma run_inv_extends (days slots : list string) (w w' : World) :
  extends w w' → run_inv days slots w → run_inv days slots w'.
Proof.
  intros Hext [Hreg Hcov]. split.
  - by eapply index_registered_extends.
  - eapply schedules_cover_grow; [|done]. apply Hext.
Qed.

Lemma extends_teachers (w w' : World) :
  extends w w' → teachers_grow (teachers (manager w)) (teachers (manager w')).
Proof. by intros (_ & _ & _ & _ & ?). Qed.

(** *** The flattened pools *)

Lemma flat_pools_cons (d : string) (days : list string) (av : Pools) :
  flat_pools (d :: days) av
  = (((λ time, (d, time)) <$> default [] (av !! d)) ++ flat_pools days av)%list.
Proof. done. Qed.

Lemma elem_of_flat_pools (days : list string) (av : Pools) (d sl : string) :
  (d, sl) ∈ flat_pools days av ↔ d ∈ days ∧ sl ∈ default [] (av !! d).
Proof.
  unfold flat_pools. rewrite list_elem_of_bind. split.
  - intros (d' & Hin & Hd'). apply list_elem_of_fmap in Hin as (sl' & [= -> ->] & Hsl).
    done.
  - intros [Hd Hsl]. exists d. split; [|done]. apply list_elem_of_fmap. by exists sl.
Qed.

Lemma all_slots_of_total (av : Pools) (days : list string) :
  (∀ d, d ∈ days → is_Some (av !! d)) →
  all_slots_of av days = Ok (flat_pools days av).
Proof.
  induction days as [|d days IH]; intros Hall; [done|].
  destruct (Hall d) as [l Hl]; [by left|].
  rewrite flat_pools_cons. simpl. unfold getitem. rewrite Hl, IH; [done|].
  intros d' Hd'. apply Hall. by right.
Qed.

Lemma flat_pools_insert_notin (days : list string) (av : Pools) (d : string)
  (l : list string) :
  d ∉ days → flat_pools days (<[d := l]> av) = flat_pools days av.
Proof.
  induction days as [|d0 days IH]; intros Hnin; [done|].
  rewrite !flat_pools_cons.
  apply not_elem_of_cons in Hnin as [Hne Hnin].
  rewrite lookup_insert_ne by done. by rewrite IH.
Qed.

Lemma flat_pools_remove (days : list string) (av : Pools) (d sl : string)
  (l l' : list string) :
  NoDup days → d ∈ days → av !! d = Some l → l ≡ₚ sl :: l' →
  flat_pools days av ≡ₚ (d, sl) :: flat_pools days (<[d := l']> av).
Proof.
  induction days as [|d0 days IH]; intros Hnd Hd Hl Hperm.
  - by apply elem_of_nil in Hd.
  - apply NoDup_cons in Hnd as [Hd0 Hnd]. rewrite !flat_pools_cons.
    destruct (decide (d0 = d)) as [->|Hne].
    + rewrite lookup_insert_eq, Hl. simpl.
      rewrite flat_pools_insert_notin by done.
      rewrite Hperm. done.
    + rewrite lookup_insert_ne by congruence.
      apply elem_of_cons in Hd as [?|Hd]; [congruence|].
      rewrite (IH Hnd Hd Hl Hperm).
      by rewrite Permutation_middle.
Qed.

(** *** Activities, lines 186-195 *)

Lemma place_activities_total (p : Params) (days slots : list string)
  (gk c : string) (st : Grid * Pools) (w : World) (n : Z) :
  NoDup days → Py.int (activity_count p) = Some n → c ≠ "" →
  run_inv days slots w →
  class_inv p days slots c st (teachers (manager w)) →
  ∃ st' w', place_activities p days slots gk c st w = (Ok st', w')
    ∧ extends w w'
    ∧ class_inv p days slots c st' (teachers (manager w')).
Proof.
  intros Hnd Hint Hc Hrun Hinv. unfold place_activities. rewrite Hint.
  unfold bind at 1, lift at 1.
  destruct (negb (bool_decide (activity_subjects p = []))
            && (0 <? Z.min n (Z.of_nat (length days) * Z.of_nat (length slots))))
    eqn:Hguard.
  2: { exists st, w. split; [done|]. split; [apply extends_refl | done]. }
  apply andb_true_iff in Hguard as [Hopts Hpos].
  apply negb_true_iff, bool_decide_eq_false in Hopts.
  apply Z.ltb_lt in Hpos.
  assert (all_slots_of st.2 days = Ok (flat_pools days st.2)) as Hall.
  { apply all_slots_of_total. intros d Hd.
    destruct Hinv as (_ & Hpools & _). destruct (Hpools d Hd) as (l & -> & _). by eauto. }
  unfold bind at 1, lift at 1. rewrite Hall.
  destruct (random_sample_total (flat_pools days st.2)
              (Z.min (Z.min n (Z.of_nat (length days) * Z.of_nat (length slots)))
                 (Z.of_nat (length (flat_pools days st.2)))) w)
    as (sample & w1 & Hsample & Hext1 & Hsub); [lia|].
  rewrite (bind_ok _ _ _ _ _ Hsample).
  destruct (foldM_total
    (λ st '(day, time),
       activity <- random_choice (activity_subjects p) ;;
       book_cell activity gk day time c st)
    (λ st rest w, run_inv days slots w
                  ∧ class_inv p days slots c st (teachers (manager w))
                  ∧ rest ⊆+ flat_pools days st.2))
    with (l := sample) (b := st) (w := w1)
    as (st' & w' & Hrun' & Hext' & _ & Hinv' & _).
  - intros st0 [d sl] rest w0 (Hrun0 & Hinv0 & Hrest).
    assert ((d, sl) ∈ flat_pools days st0.2) as Hin.
    { eapply elem_of_submseteq; [|done]. by left. }
    apply elem_of_flat_pools in Hin as [Hd Hsl].
    destruct (st0.2 !! d) as [l|] eqn:El; simpl in Hsl; [|by apply elem_of_nil in Hsl].
    destruct (random_choice_total (activity_subjects p) w0 Hopts) as (a & Ha & Hch).
    rewrite (bind_ok _ _ _ _ _ Hch).
    destruct (book_cell_total p days slots a gk d sl c st0 (advance w0) l)
      as (st1 & w2 & l' & Hbook & Hext2 & Hinv2 & Hrem & Hst1);
      [apply Hrun0 | apply Hrun0 | done | by left | done | done | done | done |].
    exists st1, w2. split; [done|].
    assert (extends w0 w2) as Hext02.
    { eapply extends_trans; [apply extends_advance | done]. }
    split; [done|]. split; [by eapply run_inv_extends|]. split; [done|].
    rewrite Hst1.
    apply remove_Some_elem in Hrem as [_ Hperm].
    rewrite (flat_pools_remove days st0.2 d sl l l' Hnd Hd El Hperm) in Hrest.
    by apply (submseteq_app_inv_l _ _ [(d, sl)]).
  - split; [by eapply run_inv_extends|]. split; [|done].
    eapply class_inv_grow; [by apply extends_teachers | done | done].
  - exists st', w'. split; [done|]. split; [by eapply extends_trans | done].
Qed.

(** *** Core subjects, lines 197-204 *)

Lemma grade_keys_known :
  map_Forall (λ _ gk, gk ∈ ["1-5"; "6-8"; "9-10"; "11-12 Science"]) GRADE_MAPPING.
Proof.
  apply map_Forall_to_list.
  let l := eval vm_compute in (map_to_list GRADE_MAPPING) in
  assert (map_to_list GRADE_MAPPING = l) as -> by (vm_compute; reflexivity).
  apply Forall_forall. intros [k v] Hin. simpl.
  apply (bool_decide_unpack _).
  repeat (apply elem_of_cons in Hin as [[= -> ->]|Hin]; [by vm_compute|]).
  by apply elem_of_nil in Hin.
Qed.

Lemma core_subjects_known (grade : string) :
  ∃ core, NCERT_SUBJECTS !! get_grade_key grade = Some core ∧ core ≠ [].
Proof.
  assert (get_grade_key grade ∈ ["1-5"; "6-8"; "9-10"; "11-12 Science"]) as Hin.
  { unfold get_grade_key. destruct (GRADE_MAPPING !! grade) as [gk|] eqn:E; simpl.
    - by apply (grade_keys_known _ _ E).
    - apply (bool_decide_unpack _). by vm_compute. }
  repeat (apply elem_of_cons in Hin as [->|Hin]; [by eexists|]).
  by apply elem_of_nil in Hin.
Qed.

Lemma fill_core_total (p : Params) (days slots : list string)
  (gk c : string) (st : Grid * Pools) (w : World) (core : list string) :
  NCERT_SUBJECTS !! gk = Some core → core ≠ [] → c ≠ "" →
  run_inv days slots w →
  class_inv p days slots c st (teachers (manager w)) →
  ∃ st' w', fill_core days gk c st w = (Ok st', w')
    ∧ extends w w'
    ∧ class_inv p days slots c st' (teachers (manager w'))
    ∧ ∀ d, d ∈ days → st'.2 !! d = Some [].
Proof.
  intros Hcore Hne Hc Hrun Hinv. unfold fill_core.
  unfold bind at 1, lift at 1, getitem. rewrite Hcore.
  destruct (foldM_total
    (λ st day,
       slots0 <- lift (getitem repr st.2 day) ;;
       foldM (λ st time,
                subject <- random_choice core ;;
                book_cell subject gk day time c st)
         st slots0)
    (λ st rest w, run_inv days slots w
                  ∧ class_inv p days slots c st (teachers (manager w))
                  ∧ ∃ done, days = (done ++ rest)%list
                            ∧ ∀ d, d ∈ done → st.2 !! d = Some []))
    with (l := days) (b := st) (w := w)
    as (st' & w' & Hrun' & Hext' & _ & Hinv' & done & Hdone & Hempty).
  - intros st0 x rest w0 (Hrun0 & Hinv0 & done & Hdays & Hempty).
    assert (x ∈ days) as Hx.
    { rewrite Hdays. apply elem_of_app. right. by left. }
    destruct Hinv0 as (Hshape & Hpools & Hrest0).
    destruct (Hpools x Hx) as (l & Hl & _).
    unfold bind at 1, lift at 1, getitem. rewrite Hl.
    destruct (foldM_total
      (λ st time,
         subject <- random_choice core ;;
         book_cell subject gk x time c st)
      (λ st rem w, run_inv days slots w
                   ∧ class_inv p days slots c st (teachers (manager w))
                   ∧ st.2 !! x = Some rem
                   ∧ ∀ d, d ∈ done → st.2 !! d = Some []))
      with (l := l) (b := st0) (w := w0)
      as (st1 & w1 & Hrun1 & Hext1 & Hr1 & Hinv1 & Hx1 & Hempty1).
    + intros st2 sl rem w2 (Hrun2 & Hinv2 & Hx2 & Hempty2).
      destruct (random_choice_total core w2 Hne) as (s & Hs & Hch).
      rewrite (bind_ok _ _ _ _ _ Hch).
      destruct (book_cell_total p days slots s gk x sl c st2 (advance w2) (sl :: rem))
        as (st3 & w3 & l' & Hbook & Hext3 & Hinv3 & Hrem & Hst3);
        [apply Hrun2 | apply Hrun2 | done | right; by eauto | done | done | done
        | by left |].
      exists st3, w3. split; [done|].
      assert (extends w2 w3) as Hext23.
      { eapply extends_trans; [apply extends_advance | done]. }
      split; [done|]. split; [by eapply run_inv_extends|]. split; [done|].
      rewrite remove_head in Hrem. injection Hrem as <-.
      rewrite Hst3. split; [by rewrite lookup_insert_eq|].
      intros d Hd. destruct (decide (x = d)) as [<-|Hxd].
      * rewrite (Hempty2 x Hd) in Hx2. done.
      * rewrite lookup_insert_ne by done. by apply Hempty2.
    + done.
    + exists st1, w1. split; [done|]. split; [done|]. split; [done|]. split; [done|].
      exists (done ++ [x])%list. split; [by rewrite Hdays, <- app_assoc|].
      intros d [Hd|Hd%list_elem_of_singleton]%elem_of_app; [by apply Hempty1|].
      by subst d.
  - split; [done|]. split; [done|]. exists []. split; [done|].
    by intros d ?%elem_of_nil.
  - exists st', w'. split; [done|]. split; [done|]. split; [done|].
    rewrite app_nil_r in Hdone. subst done. done.
Qed.

(** ** One class, lines 171-210 *)

Lemma elem_of_class_names (sections : list string) (c : string) :
  c ∈ class_names sections
  ↔ ∃ i section, 1 ≤ i ≤ 12 ∧ section ∈ sections
                 ∧ c = "Grade " +:+ Py.str i +:+ " " +:+ section.
Proof.
  unfold class_names. rewrite list_elem_of_bind. split.
  - intros (i & Hc & Hi). apply list_elem_of_bind in Hc as (sec & Hc & Hsec).
    apply list_elem_of_singleton in Hc. apply elem_of_seqZ in Hi.
    exists i, sec. split; [lia | done].
  - intros (i & sec & Hi & Hsec & ->). exists i. split.
    + apply list_elem_of_bind. exists sec. split; [by left | done].
    + apply elem_of_seqZ. lia.
Qed.

Lemma class_name_nonempty (sections : list string) (c : string) :
  c ∈ class_names sections → c ≠ "".
Proof. intros (i & sec & _ & _ & ->)%elem_of_class_names. done. Qed.

(** The grade token read back from a class name is the grade it was built
    from, whatever the section text. *)
Lemma class_name_grade (i : Z) (section : string) :
  1 ≤ i ≤ 12 →
  Py.split_ws ("Grade " +:+ Py.str i +:+ " " +:+ section) !! 1%nat = Some (Py.str i).
Proof.
  intros Hi.
  assert (i ∈ seqZ 1 12) as Hin by (apply elem_of_seqZ; lia).
  cbv [seqZ seq fmap list_fmap Z.to_nat Pos.to_nat Pos.iter_op Nat.add] in Hin.
  simpl in Hin.
  repeat (apply elem_of_cons in Hin as [->|Hin]; [by vm_compute|]).
  by apply elem_of_nil in Hin.
Qed.

Lemma grid_final_of_class (p : Params) (days slots : list string) (c : string)
  (st : Grid * Pools) (ts : gmap string Teacher) :
  class_inv p days slots c st ts →
  (∀ d, d ∈ days → st.2 !! d = Some []) →
  grid_final p days slots c ts st.1.
Proof.
  intros (Hshape & Hpools & Hcells & Hfilled & Hfrozen) Hempty.
  split; [done|]. split; [done|]. split; [|done].
  intros d t Hd Ht. destruct (Hfilled d t Hd Ht) as [(l & Hl & Hin)|?]; [|done].
  rewrite (Hempty d Hd) in Hl. injection Hl as <-. by apply elem_of_nil in Hin.
Qed.

Lemma grid_final_grow (p : Params) (days slots : list string) (c : string)
  (ts ts' : gmap string Teacher) (g : Grid) :
  teachers_grow ts ts' → c ≠ "" →
  grid_final p days slots c ts g → grid_final p days slots c ts' g.
Proof.
  intros Hg Hc (H1 & H2 & H3 & H4).
  split; [done|]. split; [|done].
  intros t d v Hv. eapply cell_ok_grow; [done | done | by apply H2].
Qed.

Lemma generate_class_total (p : Params) (days slots files sections : list string)
  (c : string) (w : World) (n : Z) :
  NoDup days → Py.int (activity_count p) = Some n →
  c ∈ class_names sections →
  run_inv days slots w →
  filesystem w (class_file c) = true →
  ∃ g w1,
    extends w w1
    ∧ grid_final p days slots c (teachers (manager w1)) g
    ∧ generate_class p days slots files c w
      = (Ok (files ++ [class_file c])%list,
         mkWorld (set_timetable_cache <[c := from_dict g days]> (manager w1))
           (random w1) (filesystem w1)).
Proof.
  intros Hnd Hint Hc Hrun Hfs.
  pose proof (class_name_nonempty _ _ Hc) as Hne.
  apply elem_of_class_names in Hc as (i & sec & Hi & Hsec & ->).
  unfold generate_class.
  rewrite (class_name_grade i sec Hi).
  unfold bind at 1, lift at 1.
  set (c := "Grade " +:+ Py.str i +:+ " " +:+ sec) in *.
  destruct (place_lunch_total p days slots w Hnd) as (st1 & w1 & Hl & Hext1 & Hg1 & Hp1).
  fold (saturday_slots_of p slots).
  change (dict_comp (λ day, if bool_decide (day ≠ "Saturday") then slots
                            else saturday_slots_of p slots) days)
    with (dict_comp (pool_of p slots) days).
  rewrite (bind_ok _ _ _ _ _ Hl).
  pose proof (class_inv_after_lunch p days slots c st1 (teachers (manager w1)) Hg1 Hp1)
    as Hinv1.
  pose proof (run_inv_extends _ _ _ _ Hext1 Hrun) as Hrun1.
  destruct (place_activities_total p days slots (get_grade_key (Py.str i)) c st1 w1 n
              Hnd Hint Hne Hrun1 Hinv1) as (st2 & w2 & Ha & Hext2 & Hinv2).
  rewrite (bind_ok _ _ _ _ _ Ha).
  pose proof (run_inv_extends _ _ _ _ Hext2 Hrun1) as Hrun2.
  destruct (core_subjects_known (Py.str i)) as (core & Hcore & Hcne).
  destruct (fill_core_total p days slots (get_grade_key (Py.str i)) c st2 w2 core
              Hcore Hcne Hne Hrun2 Hinv2) as (st3 & w3 & Hf & Hext3 & Hinv3 & Hempty).
  rewrite (bind_ok _ _ _ _ _ Hf).
  assert (extends w w3) as Hext.
  { eapply extends_trans; [done|]. by eapply extends_trans. }
  exists st3.1, w3. split; [done|].
  split; [by apply grid_final_of_class|].
  unfold bind, to_csv, modify, ret. fold (class_file c).
  destruct Hext as (_ & _ & _ & Hfs3 & _). rewrite <- Hfs3 in Hfs.
  by rewrite Hfs.
Qed.

(** ** The loop over classes *)

Lemma foldM_invariant {A B} (body : B → A → M B) (I : B → list A → World → Prop) :
  (∀ b x rest w, I b (x :: rest) w →
     ∃ b' w', body b x w = (Ok b', w') ∧ I b' rest w') →
  ∀ l b w, I b l w → ∃ b' w', foldM body b l w = (Ok b', w') ∧ I b' [] w'.
Proof.
  intros Hbody l. induction l as [|x l IH]; intros b w HI; simpl.
  - by exists b, w.
  - destruct (Hbody b x l w HI) as (b1 & w1 & Hrun & HI1).
    destruct (IH b1 w1 HI1) as (b2 & w2 & Hrun2 & HI2).
    exists b2, w2. split; [|done]. by rewrite (bind_ok _ _ _ _ _ Hrun).
Qed.

Lemma classes_loop_total (p : Params) (days slots sections : list string)
  (w0 : World) (n : Z) :
  NoDup days → Py.int (activity_count p) = Some n →
  (∀ c, c ∈ class_names sections → filesystem w0 (class_file c) = true) →
  classes_inv p days slots w0 [] [] w0 →
  ∃ files w,
    foldM (generate_class p days slots) [] (class_names sections) w0 = (Ok files, w)
    ∧ classes_inv p days slots w0 (class_names sections) files w.
Proof.
  intros Hnd Hint Hfs Hinit.
  destruct (foldM_invariant (generate_class p days slots)
    (λ files rest w, ∃ done, class_names sections = (done ++ rest)%list
                             ∧ classes_inv p days slots w0 done files w))
    with (l := class_names sections) (b := @nil string) (w := w0)
    as (files & w & Hrun & done & Hdone & Hinv).
  - intros files x rest w (done & Hsplit & Hrun & Hfsw & Hdom & Hidx & Htt & Hcd & Hcache & Hfiles).
    assert (x ∈ class_names sections) as Hx.
    { rewrite Hsplit. apply elem_of_app. right. by left. }
    destruct (generate_class_total p days slots files sections x w n)
      as (g & w1 & Hext & Hfinal & Hgen); [done | done | done | done | |].
    { rewrite Hfsw. by apply Hfs. }
    eexists _, _. split; [apply Hgen|].
    exists (done ++ [x])%list. split; [by rewrite Hsplit, <- app_assoc|].
    pose proof Hext as (Hidx1 & Hc1 & Htt1 & Hfs1 & Hgrow).
    pose proof (run_inv_extends _ _ _ _ Hext Hrun) as Hrun1.
    unfold classes_inv. simpl.
    split; [done|]. split; [congruence|].
    split; [by rewrite (teachers_grow_dom _ _ Hgrow)|].
    split; [congruence|]. split; [congruence|].
    split; [|split].
    + rewrite dom_insert_L, Hc1, Hcd, list_to_set_app_L. simpl. set_solver.
    + intros c df. rewrite lookup_insert.
      destruct (decide (x = c)) as [<-|Hne].
      * intros [= <-]. simpl. split; [by eapply class_name_nonempty | done].
      * rewrite Hc1. intros Hdf. destruct (Hcache c df Hdf) as (Hc & Hcol & Hgf).
        split; [done|]. split; [done|]. by eapply grid_final_grow.
    + rewrite Hfiles, fmap_app. done.
  - exists []. done.
  - exists files, w. split; [done|]. rewrite app_nil_r in Hdone. by subst done.
Qed.

(** ** Teacher grids, lines 212-221 *)

Lemma teacher_row_total (t : Teacher) (day : string) (slots : list string)
  (acc : gmap string string) :
  (∀ sl, sl ∈ slots → is_Some (cell_of t day sl)) →
  ∃ r, teacher_row t day slots acc = Ok r
       ∧ ∀ sl, r !! sl = if decide (sl ∈ slots) then free_or <$> cell_of t day sl
                         else acc !! sl.
Proof.
  revert acc. induction slots as [|s0 slots IH]; intros acc Hall; simpl.
  - exists acc. split; [done|]. intros sl.
    destruct (decide (sl ∈ [])) as [Hin|]; [by apply elem_of_nil in Hin | done].
  - destruct (Hall s0) as [v Hv]; [by left|].
    unfold cell_of in Hv. unfold getitem.
    destruct (schedule t !! day) as [row|] eqn:Erow; simpl in Hv; [|done].
    rewrite Hv.
    destruct (IH (<[s0 := if bool_decide (v = "") then "Free" else v]> acc))
      as (r & Hr & Hlook).
    { intros sl Hsl. apply Hall. by right. }
    exists r. split; [done|]. intros sl. rewrite Hlook.
    destruct (decide (sl ∈ slots)) as [Hin|Hnin].
    + rewrite decide_True; [done | by right].
    + rewrite lookup_insert. destruct (decide (s0 = sl)) as [<-|Hne].
      * rewrite decide_True by (by left). unfold cell_of. rewrite Erow. simpl.
        by rewrite Hv.
      * rewrite decide_False; [done|].
        intros [?|?]%elem_of_cons; [congruence | done].
Qed.

Lemma teacher_grid_total (t : Teacher) (days slots : list string) (acc : Grid) :
  (∀ d sl, d ∈ days → sl ∈ slots → is_Some (cell_of t d sl)) →
  ∃ g, teacher_grid t days slots acc = Ok g
       ∧ ∀ d sl, grid_cell g d sl
                 = if decide (d ∈ days)
                   then (if decide (sl ∈ slots) then free_or <$> cell_of t d sl
                         else None)
                   else grid_cell acc d sl.
Proof.
  revert acc. induction days as [|d0 days IH]; intros acc Hall; simpl.
  - exists acc. split; [done|]. intros d sl.
    destruct (decide (d ∈ [])) as [Hin|]; [by apply elem_of_nil in Hin | done].
  - destruct (teacher_row_total t d0 slots ∅) as (row & Hrow & Hlook).
    { intros sl Hsl. apply Hall; [by left | done]. }
    rewrite Hrow.
    destruct (IH (<[d0 := row]> acc)) as (g & Hg & Hcells).
    { intros d sl Hd Hsl. apply Hall; [by right | done]. }
    exists g. split; [done|]. intros d sl. rewrite Hcells.
    destruct (decide (d ∈ days)) as [Hin|Hnin].
    + rewrite (decide_True (P := d ∈ d0 :: days)); [done | by right].
    + unfold grid_cell. rewrite lookup_insert.
      destruct (decide (d0 = d)) as [<-|Hne].
      * rewrite (decide_True (P := d0 ∈ d0 :: days)) by (by left). simpl.
        rewrite Hlook.
        destruct (decide (sl ∈ slots)); [done | by rewrite lookup_empty].
      * rewrite (decide_False (P := d ∈ d0 :: days)); [done|].
        intros [?|?]%elem_of_cons; [congruence | done].
Qed.

Lemma teacher_schedules_total (items : list (string * Teacher))
  (days slots : list string) :
  (∀ n t d sl, (n, t) ∈ items → d ∈ days → sl ∈ slots → is_Some (cell_of t d sl)) →
  ∃ gs, teacher_schedules_of items days slots = Ok gs
        ∧ gs.*1 = items.*1
        ∧ ∀ n g, (n, g) ∈ gs →
            ∃ t, (n, t) ∈ items ∧ teacher_grid_of t days slots g.
Proof.
  induction items as [|[n0 t0] items IH]; intros Hall; simpl.
  - exists []. split; [done|]. split; [done|]. by intros n g ?%elem_of_nil.
  - destruct (teacher_grid_total t0 days slots ∅) as (g0 & Hg0 & Hcells).
    { intros d sl Hd Hsl. eapply Hall; [by left | done | done]. }
    rewrite Hg0.
    destruct IH as (gs & Hgs & Hnames & Hspec).
    { intros n t d sl Hin. apply (Hall n). by right. }
    rewrite Hgs. exists ((n0, g0) :: gs). split; [done|].
    split; [by rewrite !fmap_cons, Hnames|].
    intros n g [[= -> ->]|Hin]%elem_of_cons.
    + exists t0. split; [by left|]. intros d sl. rewrite Hcells.
      unfold grid_cell. rewrite lookup_empty. simpl.
      destruct (decide (d ∈ days)) as [Hd|Hd], (decide (sl ∈ slots)) as [Hs|Hs].
      * by rewrite decide_True.
      * rewrite decide_False; [done | by intros [_ ?]].
      * rewrite decide_False; [done | by intros [? _]].
      * rewrite decide_False; [done | by intros [? _]].
    + destruct (Hspec n g Hin) as (t & Ht & Hgrid). exists t. split; [by right | done].
Qed.

Lemma export_loop_total (days : list string) (gs : list (string * Grid))
  (files : list string) (w : World) :
  (∀ n, n ∈ gs.*1 → filesystem w (teacher_file n) = true) →
  teacher_timetable (manager w) = ∅ →
  ∃ w',
    foldM (export_teacher days) files gs w
    = (Ok (files ++ (teacher_file <$> gs.*1))%list, w')
    ∧ teachers (manager w') = teachers (manager w)
    ∧ subject_grade_teachers (manager w') = subject_grade_teachers (manager w)
    ∧ timetable_cache (manager w') = timetable_cache (manager w)
    ∧ dom (teacher_timetable (manager w')) = list_to_set gs.*1
    ∧ ∀ n df, teacher_timetable (manager w') !! n = Some df →
        ∃ g, (n, g) ∈ gs ∧ df = from_dict g days.
Proof.
  intros Hfs Hempty.
  destruct (foldM_invariant (export_teacher days)
    (λ files' rest w',
       ∃ done, gs = (done ++ rest)%list
         ∧ filesystem w' = filesystem w
         ∧ teachers (manager w') = teachers (manager w)
         ∧ subject_grade_teachers (manager w') = subject_grade_teachers (manager w)
         ∧ timetable_cache (manager w') = timetable_cache (manager w)
         ∧ dom (teacher_timetable (manager w')) = list_to_set done.*1
         ∧ (∀ n df, teacher_timetable (manager w') !! n = Some df →
              ∃ g, (n, g) ∈ done ∧ df = from_dict g days)
         ∧ files' = (files ++ (teacher_file <$> done.*1))%list))
    with (l := gs) (b := files) (w := w)
    as (files' & w' & Hrun & done & Hdone & _ & Ht & Hi & Hc & Hd & Hl & Hf).
  - intros fs0 [n g] rest w1 (done & Hsplit & Hfs1 & Ht & Hi & Hc & Hd & Hl & Hf).
    assert (filesystem w1 (teacher_file n) = true) as Hok.
    { rewrite Hfs1. apply Hfs. rewrite Hsplit, fmap_app. apply elem_of_app. right.
      by left. }
    eexists _, _. split.
    { unfold export_teacher, bind, to_csv, modify, ret. cbn [fst snd].
      fold (teacher_file n). rewrite Hok. reflexivity. }
    exists (done ++ [(n, g)])%list. simpl.
    split; [by rewrite Hsplit, <- app_assoc|].
    split; [done|]. split; [done|]. split; [done|]. split; [done|].
    split; [|split].
    + rewrite dom_insert_L, Hd, fmap_app, list_to_set_app_L. simpl. set_solver.
    + intros n' df. rewrite lookup_insert. destruct (decide (n = n')) as [<-|Hne].
      * intros [= <-]. exists g. split; [|done]. apply elem_of_app. right. by left.
      * intros Hdf. destruct (Hl n' df Hdf) as (g' & Hin & ->).
        exists g'. split; [|done]. apply elem_of_app. by left.
    + rewrite Hf, fmap_app, fmap_app, <- app_assoc. done.
  - exists []. simpl. rewrite app_nil_r, Hempty. repeat split; done.
  - rewrite app_nil_r in Hdone. subst done. exists w'. by rewrite Hf in Hrun.
Qed.

(** ** A whole run *)

Lemma days_of_NoDup (p : Params) : NoDup (days_of p).
Proof.
  unfold days_of. case_bool_decide; simpl;
    apply (bool_decide_unpack _); by vm_compute.
Qed.

Lemma index_registered_initialize (days slots : list string) (m : TimetableManager) :
  index_registered m →
  index_registered (set_teachers (fmap (initialize_schedule days slots)) m).
Proof.
  intros Hreg. unfold index_registered in *. simpl.
  eapply map_Forall_impl; [done|]. intros key names Hn. simpl in *.
  eapply Forall_impl; [done|]. intros n [t Ht]. simpl in *.
  rewrite lookup_fmap, Ht. by eauto.
Qed.

Lemma schedules_cover_initialize (days slots : list string)
  (ts : gmap string Teacher) :
  schedules_cover days slots (initialize_schedule days slots <$> ts).
Proof.
  intros n t' d sl Ht' Hd Hsl. rewrite lookup_fmap in Ht'.
  destruct (ts !! n) as [t|]; simpl in Ht'; [|done]. injection Ht' as <-.
  rewrite initialize_schedule_cell. rewrite decide_True by done. by eauto.
Qed.

(** A run that passes validation, whose activity count is a number and whose
    files can be written, completes; what it leaves behind is [run_result]. *)
Lemma generation_total (p : Params) (w : World) (s e n : Z) :
  parse_time (start_time p) = Ok s → parse_time (end_time p) = Ok e →
  s < e → periods_per_day p ≤ e - s →
  length (classes_of p) = 48%nat →
  Py.int (activity_count p) = Some n →
  index_registered (manager w) →
  (∀ c, c ∈ classes_of p → filesystem w (class_file c) = true) →
  (∀ t, is_Some (teachers (manager w) !! t) → filesystem w (teacher_file t) = true) →
  ∃ files w',
    generate_timetable p w = ((SUCCESS, files), w')
    ∧ run_result p (days_of p) (_create_time_slots s e (periods_per_day p)) w files w'.
Proof.
  intros Hs He Hlt Hspan Hlen Hint Hreg Hfsc Hfst.
  set (days := days_of p). set (slots := _create_time_slots s e (periods_per_day p)).
  set (wa := mkWorld
               (set_teacher_timetable (λ _, ∅)
                  (set_timetable_cache (λ _, ∅)
                     (set_teachers (fmap (initialize_schedule days slots)) (manager w))))
               (random w) (filesystem w)).
  assert (classes_inv p days slots wa [] [] wa) as Hinit.
  { unfold classes_inv, run_inv. simpl.
    split; [split|].
    - by apply (index_registered_initialize days slots (manager w)).
    - apply schedules_cover_initialize.
    - split; [done|]. split; [done|]. split; [done|]. split; [done|].
      split; [by rewrite dom_empty_L|].
      split; [|done]. intros c df. by rewrite lookup_empty. }
  destruct (classes_loop_total p days slots (Py.slice_to 4 (selected_sections p)) wa n)
    as (files1 & w1 & Hrun1 & Hinv1);
    [apply days_of_NoDup | done | by apply Hfsc | done |].
  destruct Hinv1 as (Hri & Hfs1 & Hdom1 & Hidx1 & Htt1 & Hcd1 & Hcache1 & Hfiles1).
  destruct (teacher_schedules_total (map_to_list (teachers (manager w1))) days slots)
    as (gs & Hgs & Hnames & Hspec).
  { intros t0 t d sl Hin%elem_of_map_to_list. destruct Hri as [_ Hcov].
    by apply (Hcov t0). }
  assert (dom (teachers (manager w1)) = dom (teachers (manager w))) as Hdomw.
  { rewrite Hdom1. simpl. by rewrite dom_fmap_L. }
  assert (∀ t0, t0 ∈ (map_to_list (teachers (manager w1))).*1
                ↔ is_Some (teachers (manager w) !! t0)) as Hkeys.
  { intros t0. rewrite <- elem_of_dom, <- Hdomw, elem_of_dom, list_elem_of_fmap. split.
    - intros ([t1 t] & -> & Hin%elem_of_map_to_list). by eauto.
    - intros [t Ht]. exists (t0, t). split; [done|]. by apply elem_of_map_to_list. }
  destruct (export_loop_total days gs files1 w1) as (w2 & Hrun2 & Ht2 & Hi2 & Hc2 & Hd2 & Hl2).
  { intros t0 Hin. rewrite Hfs1. simpl. apply Hfst. apply Hkeys. by rewrite <- Hnames. }
  { done. }
  exists (files1 ++ (teacher_file <$> gs.*1))%list, w2. split.
  - unfold generate_timetable, generate_timetable_try.
    unfold bind at 1, lift at 1. rewrite Hs.
    unfold bind at 1, lift at 1. rewrite He.
    destruct (e <=? s) eqn:E1; [lia|].
    destruct (e - s <? periods_per_day p) eqn:E2; [lia|].
    fold days. fold slots. fold (classes_of p).
    unfold bind at 1, modify at 1.
    rewrite (bool_decide_eq_true_2 _ Hlen). cbn [negb].
    unfold bind at 1, modify at 1. unfold bind at 1, modify at 1.
    cbn [manager random filesystem]. fold wa.
    unfold classes_of in *.
    rewrite (bind_ok _ _ _ _ _ Hrun1).
    unfold bind at 1, gets at 1.
    unfold bind at 1, lift at 1. fold (days_of p). fold days. rewrite Hgs.
    rewrite (bind_ok _ _ _ _ _ Hrun2). done.
  - unfold run_result. rewrite Ht2, Hi2, Hc2.
    split; [done|]. split.
    { apply set_eq. intros t0.
      rewrite Hd2, Hnames, elem_of_list_to_set, elem_of_dom. apply Hkeys. }
    split; [done|].
    split; [by rewrite Hidx1|].
    split.
    { destruct Hri as [Hr1 Hr2]. split; [|by rewrite Ht2].
      unfold index_registered. by rewrite Hi2, Ht2. }
    split; [done|]. split.
    { intros t0 df Hdf. destruct (Hl2 t0 df Hdf) as (g & Hin & ->).
      destruct (Hspec t0 g Hin) as (t & Ht & Hgrid).
      exists t. split; [by apply elem_of_map_to_list|]. split; [done|]. done. }
    by rewrite Hfiles1, Hnames.
Qed.

(** ** Labels *)

Lemma prefix_separator (x : string) :
  String.prefix " (" (String " " (String "(" x)) = true.
Proof. by destruct x. Qed.

Lemma separator_not_plain (x : string) : ¬ plain (String " " (String "(" x)).
Proof.
  unfold plain. cbn [Py.contains]. by rewrite prefix_separator.
Qed.

Lemma contains_separator (s x : string) : Py.contains " (" (s +:+ " (" +:+ x) = true.
Proof.
  induction s as [|a s IH].
  { change ("" +:+ " (" +:+ x) with (String " " (String "(" x)).
    cbn [Py.contains]. by rewrite prefix_separator. }
  change (String a s +:+ " (" +:+ x) with (String a (s +:+ " (" +:+ x)).
  cbn [Py.contains]. rewrite IH. apply orb_true_r.
Qed.

Lemma plain_tail (a : ascii) (s : string) : plain (String a s) → plain s.
Proof.
  unfold plain. cbn [Py.contains]. intros H.
  by apply orb_false_iff in H as [_ ?].
Qed.

Lemma append_nil (s : string) : "" +:+ s = s.
Proof. done. Qed.

Lemma append_cons (a : ascii) (s t : string) : String a s +:+ t = String a (s +:+ t).
Proof. done. Qed.

(** A label splits in one way only at the separator after a plain subject. *)
Lemma label_split (s1 s x y : string) :
  plain s1 → plain s → s1 +:+ " (" +:+ x = s +:+ " (" +:+ y → s1 = s ∧ x = y.
Proof.
  revert s. induction s1 as [|a s1 IH]; intros s Hp1 Hp.
  - destruct s as [|b s]; rewrite ?append_cons, ?append_nil.
    + by intros [= ->].
    + intros [= <- Heq]. destruct s as [|c s]; rewrite ?append_cons, ?append_nil in Heq.
      * discriminate.
      * injection Heq as <- _. by apply separator_not_plain in Hp.
  - destruct s as [|b s]; rewrite ?append_cons, ?append_nil.
    + intros [= -> Heq]. destruct s1 as [|c s1]; rewrite ?append_cons, ?append_nil in Heq.
      * discriminate.
      * injection Heq as -> _. by apply separator_not_plain in Hp1.
    + intros [= <- Heq].
      destruct (IH s (plain_tail _ _ Hp1) (plain_tail _ _ Hp) Heq) as [-> ->]. done.
Qed.

Lemma append_closing_inj (r T : string) : r +:+ ")" = T +:+ ")" → r = T.
Proof.
  revert T. induction r as [|a r IH]; intros T; destruct T as [|b T];
    rewrite ?append_cons, ?append_nil.
  - done.
  - intros [= <- Heq]. by destruct T.
  - intros [= -> Heq]. by destruct r.
  - intros [= <- Heq]. by rewrite (IH T Heq).
Qed.

Lemma label_inj (s1 s r T : string) :
  plain s1 → plain s →
  s1 +:+ " (" +:+ T +:+ ")" = s +:+ " (" +:+ r +:+ ")" → s1 = s ∧ T = r.
Proof.
  intros Hp1 Hp Heq. apply label_split in Heq as [-> Heq]; [|done|done].
  split; [done|]. by apply append_closing_inj.
Qed.

Lemma lunch_is_no_label (s r : string) : LUNCH ≠ s +:+ " (" +:+ r +:+ ")".
Proof.
  intros Heq. pose proof (contains_separator s (r +:+ ")")) as Hc.
  rewrite <- Heq in Hc. by vm_compute in Hc.
Qed.

Lemma core_subjects_plain (gk s : string) (core : list string) :
  NCERT_SUBJECTS !! gk = Some core → s ∈ core → plain s.
Proof.
  intros Hcore Hs.
  assert (map_Forall (λ _ core, Forall plain core) NCERT_SUBJECTS) as Hall.
  { apply map_Forall_to_list.
    let l := eval vm_compute in (map_to_list NCERT_SUBJECTS) in
    assert (map_to_list NCERT_SUBJECTS = l) as -> by (vm_compute; reflexivity).
    apply Forall_forall. intros [k v] Hin. simpl.
    repeat (apply elem_of_cons in Hin as [[= -> ->]|Hin];
            [apply Forall_forall; intros s0 Hs0;
             repeat (apply elem_of_cons in Hs0 as [->|Hs0]; [by vm_compute|]);
             by apply elem_of_nil in Hs0|]).
    by apply elem_of_nil in Hin. }
  specialize (Hall gk core Hcore). simpl in Hall.
  rewrite Forall_forall in Hall. by apply Hall.
Qed.

Lemma subject_of_run_plain (p : Params) (s : string) :
  Forall plain (activity_subjects p) → subject_of_run p s → plain s.
Proof.
  intros Hact [Hin|(gk & core & Hcore & Hin)].
  - rewrite Forall_forall in Hact. by apply Hact.
  - by eapply core_subjects_plain.
Qed.
